(** * Upload-and-analyse client ([src/App.tsx])

    A shallow embedding of the [App] component: the file validator, the two
    file intakes (picker and drag-and-drop), the analysis request with its
    timeout, and the part of the render function that decides what is shown.

    React state is a record and every [setX] call is a record update; the
    [async] handler is written in an exception monad over that record, both
    run to its end and cut at [await fetch], where the request is in flight.
    Browser services the component calls but does not define ([atob],
    [FileReader], [fetch], [Response.text], [Response.json]) appear as their
    outcomes: a value, or the value thrown.  A string is its sequence of
    bytes; a number is a binary64 float; time is counted in milliseconds
    from the moment a request is sent.  A response records how the read of
    its body ends when it ends; whether and when it ends is given apart, to
    [handleAnalyze_ending]. *)

From Stdlib Require Import ZArith NArith List Bool Lia.
From Stdlib Require Import Ascii String DecimalString.
From Stdlib Require Import PrimFloat FloatOps SpecFloat.
Import ListNotations.

Local Open Scope string_scope.
Local Open Scope Z_scope.

(* ===================================================================== *)
(** ** Constants (lines 4-7) *)

Definition MAX_FILE_SIZE : Z := 10 * 1024 * 1024.
Definition ALLOWED_TYPES : list string :=
  ["image/jpeg"; "image/png"; "image/jpg"; "image/webp"].
Definition API_TIMEOUT : Z := 300000.
Definition API_URL : string :=
  "https://8004-01jmw8ynkyfpm5jpz096pk52m6.cloudspaces.litng.ai/predict/".

(** [Array.prototype.includes] on an array of strings. *)
Fixpoint includes (xs : list string) (x : string) : bool :=
  match xs with
  | [] => false
  | y :: ys => if String.eqb y x then true else includes ys x
  end.

(* ===================================================================== *)
(** ** Files and the validator (lines 16-24) *)

(** What [FileReader.readAsDataURL] ends with: the data URL, or a failed
    read. *)
Inductive ReadOutcome : Type :=
| ReadOk (dataUrl : string)
| ReadFails.

(** A [File] as the handlers see it: its name, the MIME type it declares,
    its size in bytes, and what reading it will give. *)
Record File : Type := mkFile {
  file_name : string;
  file_type : string;
  file_size : Z;
  file_read : ReadOutcome
}.

Definition invalidTypeMessage : string :=
  "Tipo de arquivo inválido. Por favor, envie uma imagem JPG, PNG ou WebP.".
Definition fileTooLargeMessage : string :=
  "Arquivo muito grande. O tamanho máximo permitido é 5MB.".

Definition validateFile (file : File) : option string :=
  if negb (includes ALLOWED_TYPES (file_type file)) then Some invalidTypeMessage
  else if file_size file >? MAX_FILE_SIZE then Some fileTooLargeMessage
  else None.

(* ===================================================================== *)
(** ** Values that cross the boundary with the browser *)

(** A parsed JSON document, as [Response.json] resolves to. *)
#[local] Unset Elimination Schemes.
Inductive JSValue : Type :=
| JNull
| JBool (b : bool)
| JNumber (x : float)
| JString (s : string)
| JArray (items : list JSValue)
| JObject (fields : list (string * JSValue)).
#[local] Set Elimination Schemes.

(** A thrown value: an [Error] (or a subclass such as [TypeError],
    [SyntaxError], [DOMException]) with its [message], or anything else. *)
Inductive Thrown : Type :=
| ThrownError (message : string)
| ThrownOther.

(** A completion is a value or the value thrown. *)
Definition Completion (A : Type) : Type := (Thrown + A)%type.

(** The state held by [useState] (line 11). *)
Record Result : Type := mkResult {
  predicao : JSValue;
  probabilidade : JSValue
}.

(* ===================================================================== *)
(** ** Component state (lines 10-14)

    The four [useState] cells, and the [value] of the file input the
    [fileInputRef] points to (the only element with an [onChange]). *)

Record State : Type := mkState {
  selectedImage : option string;
  result : option Result;
  isLoading : bool;
  error : option string;
  inputValue : string
}.

Definition initialState : State :=
  {| selectedImage := None; result := None; isLoading := false;
     error := None; inputValue := "" |}.

Definition setSelectedImage (v : option string) (st : State) : State :=
  {| selectedImage := v; result := result st; isLoading := isLoading st;
     error := error st; inputValue := inputValue st |}.
Definition setResult (v : option Result) (st : State) : State :=
  {| selectedImage := selectedImage st; result := v; isLoading := isLoading st;
     error := error st; inputValue := inputValue st |}.
Definition setIsLoading (v : bool) (st : State) : State :=
  {| selectedImage := selectedImage st; result := result st; isLoading := v;
     error := error st; inputValue := inputValue st |}.
Definition setError (v : option string) (st : State) : State :=
  {| selectedImage := selectedImage st; result := result st;
     isLoading := isLoading st; error := v; inputValue := inputValue st |}.
(** [event.target.value = v] on the file input. *)
Definition setInputValue (v : string) (st : State) : State :=
  {| selectedImage := selectedImage st; result := result st;
     isLoading := isLoading st; error := error st; inputValue := v |}.

(** JavaScript truthiness of a [string | null]. *)
Definition truthy (v : option string) : bool :=
  match v with
  | None => false
  | Some s => negb (String.eqb s "")
  end.

(* ===================================================================== *)
(** ** An exception monad over the state

    [try]/[catch]/[finally] and the state setters of [handleAnalyze]. *)

Definition M (A : Type) : Type := State -> Completion A * State.

Definition ret {A : Type} (a : A) : M A := fun st => (inr a, st).
Definition throw {A : Type} (e : Thrown) : M A := fun st => (inl e, st).
Definition lift {A : Type} (c : Completion A) : M A := fun st => (c, st).
Definition update (f : State -> State) : M unit := fun st => (inr tt, f st).
Definition bind {A B : Type} (m : M A) (k : A -> M B) : M B :=
  fun st =>
    match m st with
    | (inl e, st') => (inl e, st')
    | (inr a, st') => k a st'
    end.

Declare Scope js_scope.
Delimit Scope js_scope with js.
Notation "x <- m ;; k" := (bind m (fun x => k))
  (at level 61, m at next level, right associativity) : js_scope.
Notation "m ;; k" := (bind m (fun _ => k))
  (at level 61, right associativity) : js_scope.

(** [try { body } catch (e) { handler e } finally { fin }]. *)
Definition tryCatchFinally (body : M unit) (handler : Thrown -> M unit)
    (fin : M unit) : M unit :=
  fun st =>
    match body st with
    | (inr _, st1) => fin st1
    | (inl e, st1) =>
        match handler e st1 with
        | (c, st2) =>
            match fin st2 with
            | (inr _, st3) => (c, st3)
            | (inl e', st3) => (inl e', st3)
            end
        end
    end.

(* ===================================================================== *)
(** ** Strings, bytes and numbers as the handlers use them *)

(** [s.split(sep)] for a one-character separator. *)
Fixpoint split (sep : ascii) (s : string) : list string :=
  match s with
  | EmptyString => [EmptyString]
  | String c rest =>
      if Ascii.eqb c sep then EmptyString :: split sep rest
      else match split sep rest with
           | [] => [String c EmptyString]
           | piece :: pieces => String c piece :: pieces
           end
  end.

(** Whether a string contains a comma. *)
Definition hasComma (s : string) : bool :=
  existsb (fun c => Ascii.eqb c ",") (list_ascii_of_string s).

(** Conversion of a [string | undefined] argument to a string, as the call
    [atob(base64Data)] does. *)
Definition toDOMString (v : option string) : string :=
  match v with
  | Some s => s
  | None => "undefined"
  end.

(** A [Blob]: its bytes and its [type]. *)
Record Blob : Type := mkBlob {
  blob_bytes : list Byte.byte;
  blob_type : string
}.

(** [new Blob(parts, { type })] concatenates the parts. *)
Definition newBlob (parts : list (list Byte.byte)) (type : string) : Blob :=
  {| blob_bytes := List.concat parts; blob_type := type |}.

(** One entry of a [FormData]: field name, value, file name. *)
Record FormEntry : Type := mkFormEntry {
  entry_name : string;
  entry_value : Blob;
  entry_filename : string
}.
Definition FormData : Type := list FormEntry.

(** [formData.append(name, blob, filename)]. *)
Definition append (name : string) (value : Blob) (filename : string)
    (formData : FormData) : FormData :=
  (formData ++ [{| entry_name := name; entry_value := value;
                   entry_filename := filename |}])%list.

(** The argument of [fetch]. *)
Record Request : Type := mkRequest {
  req_url : string;
  req_method : string;
  req_body : FormData
}.

(** A request that has been sent, with the delay of the timer armed to
    abort it (lines 73-80). *)
Record Pending : Type := mkPending {
  request : Request;
  abortAfter : Z
}.

(** A [Response]: its status, and how reading its body as text and as JSON
    ends when it ends.  Whether the read ends, and when, is not part of the
    response: [handleAnalyze_ending] takes it apart.  [ok] is true for the
    statuses 200 to 299. *)
Record Response : Type := mkResponse {
  status : N;
  bodyText : Completion string;
  bodyJson : Completion JSValue
}.

Definition ok (r : Response) : bool :=
  ((200 <=? status r) && (status r <=? 299))%N.

(** How a [fetch] promise settles. *)
Inductive Settled : Type :=
| Rejects (e : Thrown)
| Resolves (r : Response).

(** What the network does with one request: when the promise would settle
    left alone (milliseconds after the call, [None] for never) and how, and
    the reason the promise rejects with when it is aborted first. *)
Record Exchange : Type := mkExchange {
  settlesAt : option Z;
  settlesWith : Settled;
  abortReason : Thrown
}.

(** [await fetch(..., { signal })] with [controller.abort()] scheduled
    [delay] milliseconds after the call: the promise settles on its own when
    it does so before the timer fires, and rejects with the abort reason
    otherwise. *)
Definition awaitFetch (delay : Z) (x : Exchange) : Settled :=
  match settlesAt x with
  | Some t => if t <? delay then settlesWith x else Rejects (abortReason x)
  | None => Rejects (abortReason x)
  end.

(** The decimal digits of a status code, as a template literal prints it. *)
Definition statusToString (n : N) : string :=
  NilZero.string_of_uint (N.to_uint n).

(** The own property [k] of a parsed document; [None] is [undefined].
    Only the keys [predicao] and [probabilidade] are ever read, and no
    primitive or array has them. *)
Fixpoint lookupField (k : string) (fields : list (string * JSValue))
    : option JSValue :=
  match fields with
  | [] => None
  | (k', v) :: rest => if String.eqb k' k then Some v else lookupField k rest
  end.

Definition getProp (data : JSValue) (k : string) : option JSValue :=
  match data with
  | JObject fields => lookupField k fields
  | _ => None
  end.

(** [!data]. *)
Definition falsy (data : JSValue) : bool :=
  match data with
  | JNull => true
  | JBool b => negb b
  | JNumber x => PrimFloat.eqb x 0 || PrimFloat.is_nan x
  | JString s => String.eqb s ""
  | JArray _ => false
  | JObject _ => false
  end.

(** *** [Math.round] and the printing of its result *)

(** Nearest integer to [(-1)^s * m * 2^e], ties towards plus infinity. *)
Definition roundHalfUp (s : bool) (m : positive) (e : Z) : Z :=
  let v := if s then Z.neg m else Z.pos m in
  if 0 <=? e then v * 2 ^ e
  else Z.shiftr (v + 2 ^ (- e - 1)) (- e).

(** The numbers [Math.round] can return: NaN, an infinity, or an integer
    (minus zero is the integer 0: both print as 0). *)
Inductive Integral : Type :=
| NaN
| Infinite (negative : bool)
| Integer (n : Z).

(** [Math.round(x)], from the sign, mantissa and exponent of [x]. *)
Definition Math_round (x : float) : Integral :=
  match Prim2SF x with
  | S754_nan => NaN
  | S754_infinity s => Infinite s
  | S754_zero _ => Integer 0
  | S754_finite s m e => Integer (roundHalfUp s m e)
  end.

(** The text a piece of the page shows, or [Uncovered] where that text
    follows rules of the language this development does not model: nothing
    is said about the page then. *)
Inductive Shown : Type :=
| Text (s : string)
| Uncovered.

(** [String(n)] for such a number.  Below 2^53 in magnitude every integer is
    a double of its own and prints as its decimal digits.  From 2^53 on the
    digits printed are the shortest that read back as the same double, and
    from 10^21 on there is an exponent: both are left uncovered. *)
Definition integralToString (r : Integral) : Shown :=
  match r with
  | NaN => Text "NaN"
  | Infinite false => Text "Infinity"
  | Infinite true => Text "-Infinity"
  | Integer n =>
      if Z.abs n <? 2 ^ 53 then Text (NilZero.string_of_int (Z.to_int n))
      else Uncovered
  end.

(** The number an operand of [*] stands for: a number is itself, [null] is
    0, [true] is 1 and [false] is 0.  Strings, arrays and objects convert by
    parsing their text, which is left uncovered ([None]). *)
Definition toNumber (v : JSValue) : option float :=
  match v with
  | JNumber x => Some x
  | JNull => Some 0%float
  | JBool b => Some (if b then 1%float else 0%float)
  | JString _ | JArray _ | JObject _ => None
  end.

(* ===================================================================== *)
(** ** File intake (lines 26-44 and 106-128) *)

Definition readErrorMessage : string :=
  "Erro ao ler o arquivo. Por favor, tente novamente.".

(** The events a [FileReader] fires when a read ends: [load] then [loadend]
    after a successful read, [error] then [loadend] after a failed one.
    [reader.result] is the data URL in the first case and [null] in the
    second. *)
Inductive ReaderEvent : Type :=
| EvLoad
| EvError
| EvLoadEnd.

Definition readerEvents (o : ReadOutcome) : list ReaderEvent :=
  match o with
  | ReadOk _ => [EvLoad; EvLoadEnd]
  | ReadFails => [EvError; EvLoadEnd]
  end.

Definition readerResult (o : ReadOutcome) : option string :=
  match o with
  | ReadOk dataUrl => Some dataUrl
  | ReadFails => None
  end.

(** The two handlers the component installs on a reader; [onloadend] is
    given [reader.result].  No [onload] handler is installed. *)
Record ReaderCallbacks : Type := mkReaderCallbacks {
  onloadend : option string -> State -> State;
  onerror : State -> State
}.

Definition dispatch (cb : ReaderCallbacks) (o : ReadOutcome)
    (ev : ReaderEvent) (st : State) : State :=
  match ev with
  | EvLoad => st
  | EvError => onerror cb st
  | EvLoadEnd => onloadend cb (readerResult o) st
  end.

(** The state once the read started by [reader.readAsDataURL(file)] has
    ended and its events have been handled. *)
Definition settleReader (cb : ReaderCallbacks) (o : ReadOutcome)
    (st : State) : State :=
  fold_left (fun s ev => dispatch cb o ev s) (readerEvents o) st.

(** Lines 39-41. *)
Definition uploadCallbacks : ReaderCallbacks :=
  {| onloadend := fun readerResult => setSelectedImage readerResult;
     onerror := setError (Some readErrorMessage) |}.

(** Lines 116-121. *)
Definition dropCallbacks : ReaderCallbacks :=
  {| onloadend := fun readerResult st =>
                    setResult None (setSelectedImage readerResult st);
     onerror := setError (Some readErrorMessage) |}.

(** [handleImageUpload]: [file] is [event.target.files?.[0]].  Returns the
    state when the handler returns, and the file whose read it started. *)
Definition handleImageUpload (file : option File) (st : State)
    : State * option File :=
  let st := setError None st in
  let st := setResult None st in
  match file with
  | Some file =>
      let validationError := validateFile file in
      if truthy validationError then
        let st := setError validationError st in
        let st := setInputValue "" st in
        (st, None)
      else (st, Some file)
  | None => (st, None)
  end.

(** What a drag handler leaves behind: whether it called
    [event.preventDefault()], the state, and the file whose read it
    started. *)
Record Dragged : Type := mkDragged {
  defaultPrevented : bool;
  dragState : State;
  dragReader : option File
}.

(** [handleDrop]: [file] is [event.dataTransfer.files[0]]. *)
Definition handleDrop (file : option File) (st : State) : Dragged :=
  let prevented := true in
  match file with
  | Some file =>
      let validationError := validateFile file in
      if truthy validationError then
        let st := setError validationError st in
        {| defaultPrevented := prevented; dragState := st; dragReader := None |}
      else
        {| defaultPrevented := prevented; dragState := st;
           dragReader := Some file |}
  | None =>
      {| defaultPrevented := prevented; dragState := st; dragReader := None |}
  end.

Definition handleDragOver (st : State) : Dragged :=
  {| defaultPrevented := true; dragState := st; dragReader := None |}.

(** A whole intake through the file picker: the change event, then the end
    of the read it started, with nothing in between. *)
Definition pickFile (file : option File) (st : State) : State :=
  match handleImageUpload file st with
  | (st', Some f) => settleReader uploadCallbacks (file_read f) st'
  | (st', None) => st'
  end.

(** A whole intake through the drop zone. *)
Definition dropFile (file : option File) (st : State) : State :=
  let d := handleDrop file st in
  match dragReader d with
  | Some f => settleReader dropCallbacks (file_read f) (dragState d)
  | None => dragState d
  end.

(* ===================================================================== *)
(** ** The analysis request (lines 46-104) *)

Definition invalidResponseMessage : string := "Resposta inválida do servidor.".
Definition unknownErrorMessage : string := "Erro desconhecido".

(** The result shown after a failed analysis (line 100). *)
Definition errorResult : Result :=
  {| predicao := JString "Erro na Análise"; probabilidade := JNumber 0 |}.

(** [error instanceof Error ? error.message : 'Erro desconhecido']. *)
Definition thrownMessage (e : Thrown) : string :=
  match e with
  | ThrownError message => message
  | ThrownOther => unknownErrorMessage
  end.

(** [s.charCodeAt(i)]; [None] is NaN. *)
Definition charCodeAt (s : string) (i : nat) : option N :=
  match String.get i s with
  | Some c => Some (N_of_ascii c)
  | None => None
  end.

(** An element of a [Uint8Array] built from a number. *)
Definition toUint8 (v : option N) : Byte.byte :=
  match v with
  | Some n => match Byte.of_N (n mod 256) with
              | Some b => b
              | None => Byte.x00
              end
  | None => Byte.x00
  end.

(** Lines 61-67: the bytes of one slice. *)
Definition sliceBytes (slice : string) : list Byte.byte :=
  let byteNumbers :=
    map (fun i => charCodeAt slice i) (seq 0 (String.length slice)) in
  map toUint8 byteNumbers.

(** Lines 59-68: the loop over the slices of 1024 characters.  [fuel]
    bounds the number of iterations. *)
Fixpoint sliceLoop (fuel : nat) (byteCharacters : string) (offset : nat)
    (byteArrays : list (list Byte.byte)) : list (list Byte.byte) :=
  match fuel with
  | O => byteArrays
  | S fuel' =>
      if (offset <? String.length byteCharacters)%nat then
        let slice := substring offset 1024 byteCharacters in
        sliceLoop fuel' byteCharacters (offset + 1024)
                  (byteArrays ++ [sliceBytes slice])
      else byteArrays
  end.

Definition byteArraysOf (byteCharacters : string) : list (list Byte.byte) :=
  sliceLoop (String.length byteCharacters) byteCharacters 0 [].

Local Open Scope js_scope.

Section Analyze.

(** The browser's base64 decoder: a binary string, or the exception it
    throws on malformed input. *)
Variable atob : string -> Completion string.

(** Lines 53-74: build the form and arm the timer. *)
Definition prepareRequest (selectedImage : string) : M Pending :=
  let formData : FormData := [] in
  let base64Data := nth_error (split "," selectedImage) 1 in
  byteCharacters <- lift (atob (toDOMString base64Data)) ;;
  let byteArrays := byteArraysOf byteCharacters in
  let imageBlob := newBlob byteArrays "image/png" in
  let formData := append "file" imageBlob "image.png" formData in
  ret {| request := {| req_url := API_URL; req_method := "POST";
                       req_body := formData |};
         abortAfter := API_TIMEOUT |}.

(** Lines 84-96. *)
Definition processResponse (response : Response) : M unit :=
  (if negb (ok response) then
     text <- lift (bodyText response) ;;
     throw (ThrownError ("Erro do servidor (" ++
                         statusToString (status response) ++ "): " ++ text))
   else ret tt) ;;
  data <- lift (bodyJson response) ;;
  if falsy data then throw (ThrownError invalidResponseMessage)
  else match getProp data "predicao", getProp data "probabilidade" with
       | Some predicao, Some probabilidade =>
           update (setResult (Some {| predicao := predicao;
                                      probabilidade := probabilidade |}))
       | _, _ => throw (ThrownError invalidResponseMessage)
       end.

(** Lines 76-96: from the moment the [fetch] promise settles. *)
Definition afterFetch (p : Pending) (x : Exchange) : M unit :=
  match awaitFetch (abortAfter p) x with
  | Rejects e => throw e
  | Resolves response => processResponse response
  end.

(** Lines 97-100. *)
Definition catchClause (e : Thrown) : M unit :=
  let errorMessage := thrownMessage e in
  update (setError (Some errorMessage)) ;;
  update (setResult (Some errorResult)).

(** Lines 101-103. *)
Definition finallyClause : M unit := update (setIsLoading false).

(** The state the [catch] and [finally] clauses leave when [e] was thrown
    in state [st]. *)
Definition afterFailure (e : Thrown) (st : State) : State :=
  setIsLoading false
    (setResult (Some errorResult) (setError (Some (thrownMessage e)) st)).

(** [handleAnalyze], run to its end against the exchange [x]. *)
Definition handleAnalyze (x : Exchange) (st : State) : State :=
  match selectedImage st with
  | Some image =>
      if negb (truthy (Some image)) then st
      else
        snd ((update (setIsLoading true) ;;
              update (setError None) ;;
              update (setResult None) ;;
              tryCatchFinally
                (p <- prepareRequest image ;; afterFetch p x)
                catchClause finallyClause) st)
  | None => st
  end.

(** The same handler cut at [await fetch]: how far it gets before it
    suspends, and what it does once the promise settles. *)
Inductive Started : Type :=
| NotStarted
| Finished (st : State)
| InFlight (st : State) (p : Pending).

Definition handleAnalyze_start (st : State) : Started :=
  match selectedImage st with
  | Some image =>
      if negb (truthy (Some image)) then NotStarted
      else
        let st := setResult None (setError None (setIsLoading true st)) in
        match prepareRequest image st with
        | (inr p, st1) => InFlight st1 p
        | (inl e, st1) =>
            Finished (snd (tryCatchFinally (throw e) catchClause
                                           finallyClause st1))
        end
  | None => NotStarted
  end.

Definition handleAnalyze_resume (p : Pending) (x : Exchange) (st : State)
    : State :=
  snd (tryCatchFinally (afterFetch p x) catchClause finallyClause st).

End Analyze.

Local Close Scope js_scope.

(* ===================================================================== *)
(** ** What the render function shows (lines 130-218) *)

(** Line 183: [disabled={!selectedImage || isLoading}]. *)
Definition analyzeDisabled (st : State) : bool :=
  negb (truthy (selectedImage st)) || isLoading st.

(** Lines 141-169: the drop zone, the only element with the drag handlers,
    is rendered when no image is selected. *)
Definition dropZoneShown (st : State) : bool :=
  negb (truthy (selectedImage st)).

(** Lines 194-198. *)
Definition errorBanner (st : State) : option string :=
  if truthy (error st) then error st else None.

(** Line 210: [{Math.round(result.probabilidade * 100)}%]. *)
Definition confidenceText (r : Result) : Shown :=
  match toNumber (probabilidade r) with
  | Some p =>
      match integralToString (Math_round (p * 100)) with
      | Text digits => Text (digits ++ "%")
      | Uncovered => Uncovered
      end
  | None => Uncovered
  end.

(** Lines 201-213: the confidence shown in the result card; [None] when
    there is no card. *)
Definition shownConfidence (st : State) : option Shown :=
  match result st with
  | Some r => Some (confidenceText r)
  | None => None
  end.

(* ===================================================================== *)
(** ** The page as an event-driven system

    The state of the component together with what is still going on
    outside it: the requests sent and not yet settled, and the file reads
    started and not yet ended. *)

Inductive Intake : Type :=
| Picker
| DropZone.

Definition callbacksOf (i : Intake) : ReaderCallbacks :=
  match i with
  | Picker => uploadCallbacks
  | DropZone => dropCallbacks
  end.

Record System : Type := mkSystem {
  app : State;
  inflight : list Pending;
  readers : list (Intake * ReadOutcome)
}.

Definition initialSystem : System :=
  {| app := initialState; inflight := []; readers := [] |}.

Inductive Event : Type :=
| Change (value : string) (file : option File)
| Drop (file : option File)
| DragOver
| ReadEnds (i : nat)
| ClickAnalyze
| FetchSettles (i : nat) (x : Exchange).

Definition removeNth {A : Type} (i : nat) (l : list A) : list A :=
  (firstn i l ++ skipn (S i) l)%list.

Definition startReader (i : Intake) (pending : option File)
    (rs : list (Intake * ReadOutcome)) : list (Intake * ReadOutcome) :=
  match pending with
  | Some f => (rs ++ [(i, file_read f)])%list
  | None => rs
  end.

(** At most one request is outstanding, and exactly while the flag is set. *)
Definition oneRequestAtMost (sys : System) : Prop :=
  List.length (inflight sys) = if isLoading (app sys) then 1%nat else 0%nat.

Section Page.

Variable atob : string -> Completion string.

(** One event.  A change event comes with the value the browser gave the
    input; drag events reach a handler only while the drop zone is
    rendered, and a click only while the button is enabled. *)
Definition step (ev : Event) (sys : System) : System :=
  match ev with
  | Change value file =>
      let (st, pending) :=
        handleImageUpload file (setInputValue value (app sys)) in
      {| app := st; inflight := inflight sys;
         readers := startReader Picker pending (readers sys) |}
  | Drop file =>
      if dropZoneShown (app sys) then
        let d := handleDrop file (app sys) in
        {| app := dragState d; inflight := inflight sys;
           readers := startReader DropZone (dragReader d) (readers sys) |}
      else sys
  | DragOver =>
      if dropZoneShown (app sys) then
        {| app := dragState (handleDragOver (app sys));
           inflight := inflight sys; readers := readers sys |}
      else sys
  | ReadEnds i =>
      match nth_error (readers sys) i with
      | Some (intake, o) =>
          {| app := settleReader (callbacksOf intake) o (app sys);
             inflight := inflight sys;
             readers := removeNth i (readers sys) |}
      | None => sys
      end
  | ClickAnalyze =>
      if analyzeDisabled (app sys) then sys
      else match handleAnalyze_start atob (app sys) with
           | NotStarted => sys
           | Finished st =>
               {| app := st; inflight := inflight sys;
                  readers := readers sys |}
           | InFlight st p =>
               {| app := st; inflight := (inflight sys ++ [p])%list;
                  readers := readers sys |}
           end
  | FetchSettles i x =>
      match nth_error (inflight sys) i with
      | Some p =>
          {| app := handleAnalyze_resume p x (app sys);
             inflight := removeNth i (inflight sys);
             readers := readers sys |}
      | None => sys
      end
  end.

Definition run (evs : list Event) (sys : System) : System :=
  fold_left (fun s ev => step ev s) evs sys.

End Page.

(* ===================================================================== *)
(** ** A base64 decoder to run the handlers on

    The decoding [atob] performs: ASCII whitespace is dropped, up to two
    padding characters are removed from an input whose length is a multiple
    of four, and an input that then has a length of 1 modulo 4 or a
    character outside the alphabet makes it throw. *)

Module Browser.

Definition isWhitespace (c : ascii) : bool :=
  let n := N_of_ascii c in
  ((n =? 9) || (n =? 10) || (n =? 12) || (n =? 13) || (n =? 32))%N.

Definition sextet (c : ascii) : option N :=
  let n := N_of_ascii c in
  (if (65 <=? n) && (n <=? 90) then Some (n - 65)
   else if (97 <=? n) && (n <=? 122) then Some (n - 71)
   else if (48 <=? n) && (n <=? 57) then Some (n + 4)
   else if n =? 43 then Some 62
   else if n =? 47 then Some 63
   else None)%N.

Fixpoint sextets (cs : list ascii) : option (list N) :=
  match cs with
  | [] => Some []
  | c :: rest =>
      match sextet c, sextets rest with
      | Some n, Some ns => Some (n :: ns)
      | _, _ => None
      end
  end.

Definition stripPadding (cs : list ascii) : list ascii :=
  if (List.length cs mod 4 =? 0)%nat then
    match rev cs with
    | "="%char :: "="%char :: rest => rev rest
    | "="%char :: rest => rev rest
    | _ => cs
    end
  else cs.

Fixpoint decodeGroups (fuel : nat) (ns : list N) : list ascii :=
  match fuel with
  | O => []
  | S fuel' =>
      match ns with
      | a :: b :: c :: d :: rest =>
          let w := (a * 262144 + b * 4096 + c * 64 + d)%N in
          ascii_of_N (w / 65536) :: ascii_of_N ((w / 256) mod 256)
            :: ascii_of_N (w mod 256) :: decodeGroups fuel' rest
      | [a; b; c] =>
          let w := (a * 4096 + b * 64 + c)%N in
          [ascii_of_N (w / 1024); ascii_of_N ((w / 4) mod 256)]
      | [a; b] => [ascii_of_N ((a * 64 + b) / 16)]
      | _ => []
      end
  end.

Definition decodeError : Thrown :=
  ThrownError "The string to be decoded is not correctly encoded.".

Definition atob (s : string) : Completion string :=
  let cs := filter (fun c => negb (isWhitespace c)) (list_ascii_of_string s) in
  let cs := stripPadding cs in
  if (List.length cs mod 4 =? 1)%nat then inl decodeError
  else match sextets cs with
       | Some ns => inr (string_of_list_ascii (decodeGroups (List.length ns) ns))
       | None => inl decodeError
       end.

End Browser.

(* ===================================================================== *)
(** ** Concrete files, states and exchanges *)

(** [needle] occurs in [hay]. *)
Definition contains (needle hay : string) : Prop :=
  exists pre post, hay = pre ++ needle ++ post.

Module Sample.

Definition pngUrl : string := "data:image/png;base64,iVBORw0KGgo=".
Definition jpegUrl : string := "data:image/jpeg;base64,/9j/4A==".

(** A 2 MB JPEG and a 2 MB PNG that read well, a PNG whose read fails, a
    PDF, and a PNG of 10 MiB and one byte. *)
Definition chestJpeg : File :=
  {| file_name := "torax.jpg"; file_type := "image/jpeg";
     file_size := 2097152; file_read := ReadOk jpegUrl |}.
Definition chestPng : File :=
  {| file_name := "torax.png"; file_type := "image/png";
     file_size := 2097152; file_read := ReadOk pngUrl |}.
Definition unreadablePng : File :=
  {| file_name := "torax.png"; file_type := "image/png";
     file_size := 2097152; file_read := ReadFails |}.
Definition report : File :=
  {| file_name := "laudo.pdf"; file_type := "application/pdf";
     file_size := 4096; file_read := ReadOk "data:application/pdf;base64,JVBERg==" |}.
Definition hugePng : File :=
  {| file_name := "grande.png"; file_type := "image/png";
     file_size := 10485761; file_read := ReadOk pngUrl |}.

(** The page with the JPEG selected and nothing else shown. *)
Definition selected : State :=
  {| selectedImage := Some jpegUrl; result := None; isLoading := false;
     error := None; inputValue := "C:\fakepath\torax.jpg" |}.

(** The page after an analysis of the JPEG has succeeded. *)
Definition analysed : State :=
  {| selectedImage := Some jpegUrl;
     result := Some {| predicao := JString "Normal";
                       probabilidade := JNumber 0.75 |};
     isLoading := false; error := None;
     inputValue := "C:\fakepath\torax.jpg" |}.

(** The page after the PDF has been refused. *)
Definition refused : State :=
  {| selectedImage := None; result := None; isLoading := false;
     error := Some invalidTypeMessage; inputValue := "" |}.

Definition abortError : Thrown := ThrownError "The user aborted a request.".

(** The server answers with [r] after 1.2 seconds. *)
Definition replies (r : Response) : Exchange :=
  {| settlesAt := Some 1200; settlesWith := Resolves r;
     abortReason := abortError |}.

(** The server answers with [r] after 5 minutes and 1 millisecond. *)
Definition repliesLate (r : Response) : Exchange :=
  {| settlesAt := Some 300001; settlesWith := Resolves r;
     abortReason := abortError |}.


(** [s] between double quotes. *)
Definition q (s : string) : string :=
  String (ascii_of_N 34) s ++ String (ascii_of_N 34) EmptyString.

Definition json (status : N) (text : string) (data : JSValue) : Response :=
  {| status := status; bodyText := inr text; bodyJson := inr data |}.

Definition notJson (status : N) (text : string) (message : string) : Response :=
  {| status := status; bodyText := inr text;
     bodyJson := inl (ThrownError message) |}.

(** The body with [predicao] Tuberculose and [probabilidade] 0.87; the
    number is the binary64 value nearest to 0.87. *)
Definition tuberculose : Response :=
  json 200 ("{" ++ q "predicao" ++ ":" ++ q "Tuberculose" ++ ","
            ++ q "probabilidade" ++ ":0.87}")
    (JObject [("predicao", JString "Tuberculose");
              ("probabilidade", JNumber 0x1.bd70a3d70a3d7p-1)]).


Definition htmlPage : Response :=
  notJson 200 "<html></html>" "Unexpected token < in JSON at position 0".

(** A body whose [predicao] is the number 7 and whose [probabilidade] is
    the string alta. *)
Definition wrongTypes : Response :=
  json 200 ("{" ++ q "predicao" ++ ":7," ++ q "probabilidade" ++ ":"
            ++ q "alta" ++ "}")
    (JObject [("predicao", JNumber 7); ("probabilidade", JString "alta")]).

(** A body with [predicao] only. *)
Definition noProbability : Response :=
  json 200 ("{" ++ q "predicao" ++ ":" ++ q "Tuberculose" ++ "}")
    (JObject [("predicao", JString "Tuberculose")]).

End Sample.

(* ===================================================================== *)
(** ** When a run ends (lines 73-88)

    The timer is armed before [fetch] is called (line 74) and cleared as
    soon as the promise resolves (line 82).  The read of the body,
    [response.text()] on line 85 or [response.json()] on line 88, is awaited
    after that, with no timer armed. *)

(** How a run goes on once its request is sent: it ends [t] milliseconds
    after the request was sent, leaving the state [st]; or it stays
    suspended at an [await] for good, the page remaining in the state
    [st]. *)
Inductive Ending : Type :=
| EndsAt (t : Z) (st : State)
| NeverEnds (st : State).

(** The moment the [fetch] promise settles: on its own, or when the timer
    armed [delay] milliseconds after the call aborts it. *)
Definition fetchSettledAt (delay : Z) (x : Exchange) : Z :=
  match settlesAt x with
  | Some t => if t <? delay then t else delay
  | None => delay
  end.

(** The second half of [handleAnalyze] in time.  [bodyTakes] is how long
    the read of the body takes once the promise has resolved, [None] for a
    body that never arrives in full. *)
Definition handleAnalyze_ending (p : Pending) (x : Exchange)
    (bodyTakes : option Z) (st : State) : Ending :=
  let t := fetchSettledAt (abortAfter p) x in
  match awaitFetch (abortAfter p) x with
  | Rejects _ => EndsAt t (handleAnalyze_resume p x st)
  | Resolves _ =>
      match bodyTakes with
      | Some d => EndsAt (t + d) (handleAnalyze_resume p x st)
      | None => NeverEnds st
      end
  end.


(* ===================================================================== *)
(** ** More of the render function (lines 171-213) *)

(** Line 175: [accept={ALLOWED_TYPES.join(',')}]. *)
Definition accept : string := String.concat "," ALLOWED_TYPES.

Definition enabledStyle : string := "bg-blue-600 hover:bg-blue-700".
Definition disabledStyle : string := "bg-gray-400 cursor-not-allowed".

(** Lines 184-188: the class of the button. *)
Definition buttonClassName (st : State) : string :=
  "px-6 py-2 rounded-full text-white font-medium flex items-center gap-2 "
  ++ (if truthy (selectedImage st) && negb (isLoading st)
      then enabledStyle else disabledStyle)
  ++ " transition-colors".

(** Line 190: [{isLoading && <Loader ... />}]. *)
Definition spinnerShown (st : State) : bool := isLoading st.

(** Line 191. *)
Definition buttonLabel (st : State) : string :=
  if isLoading st then "Analisando..." else "Analisar Imagem".

(** [hay.includes(needle)] on strings. *)
Fixpoint includesString (needle hay : string) : bool :=
  if String.prefix needle hay then true
  else match hay with
       | EmptyString => false
       | String _ rest => includesString needle rest
       end.

(** [items.includes(x)] on an array, for a string [x]: some element is that
    string. *)
Definition arrayIncludes (items : list JSValue) (x : string) : bool :=
  existsb (fun v => match v with
                    | JString s => String.eqb s x
                    | _ => false
                    end) items.

Definition redText : string := "text-xl font-bold text-red-600".
Definition blueText : string := "text-xl font-bold text-blue-600".

(** Lines 204-206: the class of the label in the result card,
    [result.predicao.includes("Erro") ? ... : ...].  Strings and arrays have
    an [includes] method; on [null] the property access throws, and on a
    number, a boolean or an object the call does, a parsed document never
    holding a function.  The messages are those of one engine. *)
Definition cardClassName (r : Result) : Completion string :=
  match predicao r with
  | JString s => inr (if includesString "Erro" s then redText else blueText)
  | JArray items => inr (if arrayIncludes items "Erro" then redText else blueText)
  | JNull => inl (ThrownError "Cannot read properties of null")
  | JBool _ | JNumber _ | JObject _ =>
      inl (ThrownError "result.predicao.includes is not a function")
  end.

(** More files and responses to run the handlers on. *)
Module Scenario.

(** A PNG of 8 MiB. *)
Definition largePng : File :=
  {| file_name := "torax-hd.png"; file_type := "image/png";
     file_size := 8388608; file_read := ReadOk Sample.pngUrl |}.

(** The page with a string that is not a data URL as selected image. *)
Definition oddImage : State :=
  {| selectedImage := Some "blob"; result := None; isLoading := false;
     error := None; inputValue := "" |}.

(** A 503 whose body nevertheless parses to a prediction. *)
Definition unavailable : Response :=
  {| status := 503; bodyText := inr "Service Unavailable";
     bodyJson := inr (JObject [("predicao", JString "Normal");
                               ("probabilidade", JNumber 0.5)]) |}.

(** A 200 whose [predicao] is the number 7. *)
Definition numericLabel : Response :=
  Sample.json 200 ("{" ++ Sample.q "predicao" ++ ":7,"
                    ++ Sample.q "probabilidade" ++ ":0.5}")
    (JObject [("predicao", JNumber 7); ("probabilidade", JNumber 0.5)]).

(** The JPEG is selected and its analysis is started. *)
Definition analysing : list Event :=
  [Change "C:\fakepath\torax.jpg" (Some Sample.chestJpeg); ReadEnds 0;
   ClickAnalyze].

End Scenario.

(** While the flag is set no result is held. *)
Definition noResultWhileLoading (sys : System) : Prop :=
  isLoading (app sys) = true -> result (app sys) = None.

Ltac run_js :=
  unfold handleAnalyze_resume, tryCatchFinally, afterFetch, processResponse,
    catchClause, finallyClause, afterFailure, bind, update, throw, ret, lift.

(* ===================================================================== *)
(** * Properties *)

(** *** The validator *)

Lemma includes_In (xs : list string) (x : string) :
  includes xs x = true <-> In x xs.
Proof.
  induction xs as [|y ys IH]; simpl.
  - split; [discriminate | tauto].
  - destruct (String.eqb_spec y x) as [->|Hne].
    + split; auto.
    + rewrite IH. split; [auto | intros [E|H]; [contradiction | exact H]].
Qed.

(** C1: the validator rejects with the invalid-type message exactly when the
    declared type is none of image/jpeg, image/png, image/jpg, image/webp;
    otherwise with the file-too-large message exactly when the size exceeds
    10,485,760 bytes; otherwise it accepts.  The type check comes first, and
    the answer depends on the declared type and the size only. *)
Theorem validateFile_contract :
  MAX_FILE_SIZE = 10485760 /\
  (forall f : File,
      (validateFile f = Some invalidTypeMessage <->
       ~ In (file_type f) ["image/jpeg"; "image/png"; "image/jpg"; "image/webp"]) /\
      (validateFile f = Some fileTooLargeMessage <->
       In (file_type f) ["image/jpeg"; "image/png"; "image/jpg"; "image/webp"] /\
       file_size f > 10485760) /\
      (validateFile f = None <->
       In (file_type f) ["image/jpeg"; "image/png"; "image/jpg"; "image/webp"] /\
       file_size f <= 10485760)) /\
  (forall f g : File,
      file_type f = file_type g -> file_size f = file_size g ->
      validateFile f = validateFile g).
Proof.
  split; [reflexivity|]. split.
  - intro f. unfold validateFile.
    pose proof (includes_In ALLOWED_TYPES (file_type f)) as Hin.
    change ALLOWED_TYPES with
      ["image/jpeg"; "image/png"; "image/jpg"; "image/webp"] in Hin at 2.
    change MAX_FILE_SIZE with 10485760.
    destruct (includes ALLOWED_TYPES (file_type f)) eqn:Hty; cbn [negb].
    + assert (Hmem : In (file_type f)
                        ["image/jpeg"; "image/png"; "image/jpg"; "image/webp"])
        by (apply Hin; reflexivity).
      destruct (Z.gtb_spec (file_size f) 10485760) as [Hgt|Hle];
        (split; [|split]); split; intro H;
        try reflexivity; try discriminate; try tauto; try lia;
        try (split; [assumption | lia]).
    + assert (Hnot : ~ In (file_type f)
                        ["image/jpeg"; "image/png"; "image/jpg"; "image/webp"])
        by (intro H; apply Hin in H; discriminate).
      (split; [|split]); split; intro H;
        try reflexivity; try discriminate; try tauto.
  - intros f g Hty Hsz. unfold validateFile. now rewrite Hty, Hsz.
Qed.

(** *** The slicing loop rebuilds the decoded bytes *)

Lemma length_list_ascii (s : string) :
  List.length (list_ascii_of_string s) = String.length s.
Proof. induction s as [|c s IH]; simpl; congruence. Qed.

Lemma list_ascii_substring (s : string) :
  forall n m,
    list_ascii_of_string (substring n m s)
    = firstn m (skipn n (list_ascii_of_string s)).
Proof.
  induction s as [|c s IH]; intros [|n] [|m]; simpl; try reflexivity.
  - now rewrite IH.
  - now rewrite IH.
  - now rewrite IH.
Qed.

Lemma charCodeAt_tail (c : ascii) (s : string) (i : nat) :
  charCodeAt (String c s) (S i) = charCodeAt s i.
Proof. reflexivity. Qed.

Lemma toUint8_charCode (c : ascii) :
  toUint8 (Some (N_of_ascii c)) = byte_of_ascii c.
Proof.
  unfold toUint8.
  rewrite N.mod_small by apply N_ascii_bounded.
  now rewrite <- byte_of_ascii_via_N.
Qed.

Lemma sliceBytes_spec (slice : string) :
  sliceBytes slice = list_byte_of_string slice.
Proof.
  unfold sliceBytes, list_byte_of_string.
  induction slice as [|c s IH].
  - reflexivity.
  - cbn [String.length list_ascii_of_string map].
    rewrite <- cons_seq, <- seq_shift. cbn [map].
    rewrite !map_map.
    erewrite map_ext with (g := fun i => toUint8 (charCodeAt s i))
      by (intro i; now rewrite charCodeAt_tail).
    rewrite map_map in IH. rewrite IH.
    f_equal. unfold charCodeAt. cbn [String.get]. apply toUint8_charCode.
Qed.

Lemma sliceLoop_step (fuel : nat) (s : string) (offset : nat)
    (acc : list (list Byte.byte)) :
  sliceLoop (S fuel) s offset acc
  = if (offset <? String.length s)%nat
    then sliceLoop fuel s (offset + 1024)
                   (acc ++ [sliceBytes (substring offset 1024 s)])
    else acc.
Proof. reflexivity. Qed.

Lemma sliceLoop_concat (s : string) :
  forall fuel offset acc,
    (String.length s <= fuel + offset)%nat ->
    List.concat (sliceLoop fuel s offset acc)
    = (List.concat acc
       ++ map byte_of_ascii (skipn offset (list_ascii_of_string s)))%list.
Proof.
  induction fuel as [|fuel IH]; intros offset acc Hfuel.
  - cbn [sliceLoop].
    rewrite skipn_all2 by (rewrite length_list_ascii; lia).
    cbn [map]. now rewrite app_nil_r.
  - rewrite sliceLoop_step.
    destruct (Nat.ltb_spec offset (String.length s)) as [Hlt|Hge].
    + rewrite IH by lia.
      rewrite concat_app. cbn [List.concat]. rewrite app_nil_r.
      rewrite sliceBytes_spec. unfold list_byte_of_string.
      rewrite list_ascii_substring.
      rewrite <- app_assoc, <- map_app. do 2 f_equal.
      rewrite (Nat.add_comm offset 1024), <- skipn_skipn.
      apply firstn_skipn.
    + rewrite skipn_all2 by (rewrite length_list_ascii; lia).
      cbn [map]. now rewrite app_nil_r.
Qed.

(** The chunk size has no effect on the bytes: the parts put into the blob
    are, in order, the character codes of the decoded string. *)
Lemma byteArraysOf_concat (byteCharacters : string) :
  List.concat (byteArraysOf byteCharacters) = list_byte_of_string byteCharacters.
Proof.
  unfold byteArraysOf. rewrite sliceLoop_concat by lia. reflexivity.
Qed.

(** *** The payload of a data URL *)

Lemma split_no_comma (s : string) :
  hasComma s = false -> split "," s = [s].
Proof.
  unfold hasComma. induction s as [|c s IH]; cbn; [reflexivity|].
  destruct (Ascii.eqb c ","); [discriminate|].
  cbn. intro H. now rewrite IH.
Qed.

Lemma split_at_comma (a b : string) :
  hasComma a = false -> split "," (a ++ String "," b) = a :: split "," b.
Proof.
  unfold hasComma. induction a as [|c a IH]; cbn.
  - reflexivity.
  - destruct (Ascii.eqb c ","); [discriminate|].
    cbn. intro H. now rewrite IH.
Qed.

Lemma hasComma_app (a b : string) :
  hasComma (a ++ b) = hasComma a || hasComma b.
Proof.
  unfold hasComma. induction a as [|c a IH]; cbn; [reflexivity|].
  now rewrite IH, orb_assoc.
Qed.

Lemma string_app_assoc (a b c : string) : (a ++ b) ++ c = a ++ (b ++ c).
Proof. induction a as [|x a IH]; cbn; [reflexivity | now rewrite IH]. Qed.

(** [selectedImage.split(',')[1]] of a base64 data URL is its payload,
    whatever media type the URL names. *)
Lemma dataUrl_payload (mime payload : string) :
  hasComma mime = false -> hasComma payload = false ->
  nth_error (split "," ("data:" ++ mime ++ ";base64," ++ payload)) 1
  = Some payload.
Proof.
  intros Hm Hp.
  replace ("data:" ++ mime ++ ";base64," ++ payload)
    with (("data:" ++ mime ++ ";base64") ++ String "," payload).
  - rewrite split_at_comma.
    + now rewrite split_no_comma.
    + rewrite !hasComma_app, Hm. reflexivity.
  - rewrite !string_app_assoc. reflexivity.
Qed.

(** *** The analysis handler, step by step *)

Lemma resume_rejects (p : Pending) (x : Exchange) (st : State) (e : Thrown) :
  awaitFetch (abortAfter p) x = Rejects e ->
  handleAnalyze_resume p x st = afterFailure e st.
Proof. intro H. run_js. now rewrite H. Qed.


Lemma resume_not_ok_unreadable (p : Pending) (x : Exchange) (st : State)
    (r : Response) (e : Thrown) :
  awaitFetch (abortAfter p) x = Resolves r ->
  ok r = false -> bodyText r = inl e ->
  handleAnalyze_resume p x st = afterFailure e st.
Proof. intros H Hok Hb. run_js. now rewrite H, Hok, Hb. Qed.

Lemma resume_json_fails (p : Pending) (x : Exchange) (st : State)
    (r : Response) (e : Thrown) :
  awaitFetch (abortAfter p) x = Resolves r ->
  ok r = true -> bodyJson r = inl e ->
  handleAnalyze_resume p x st = afterFailure e st.
Proof. intros H Hok Hb. run_js. now rewrite H, Hok, Hb. Qed.

Lemma falsy_no_prop (data : JSValue) (k : string) :
  falsy data = true -> getProp data k = None.
Proof. destruct data; simpl; try reflexivity; discriminate. Qed.

Lemma resume_missing_field (p : Pending) (x : Exchange) (st : State)
    (r : Response) (data : JSValue) :
  awaitFetch (abortAfter p) x = Resolves r ->
  ok r = true -> bodyJson r = inr data ->
  getProp data "predicao" = None \/ getProp data "probabilidade" = None ->
  handleAnalyze_resume p x st = afterFailure (ThrownError invalidResponseMessage) st.
Proof.
  intros H Hok Hb Hmiss. run_js. rewrite H, Hok, Hb. cbn [negb].
  destruct (falsy data); [reflexivity|].
  destruct Hmiss as [-> | ->]; [reflexivity|].
  now destruct (getProp data "predicao").
Qed.

Lemma resume_success (p : Pending) (x : Exchange) (st : State)
    (r : Response) (data a b : JSValue) :
  awaitFetch (abortAfter p) x = Resolves r ->
  ok r = true -> bodyJson r = inr data ->
  getProp data "predicao" = Some a -> getProp data "probabilidade" = Some b ->
  handleAnalyze_resume p x st
  = setIsLoading false
      (setResult (Some {| predicao := a; probabilidade := b |}) st).
Proof.
  intros H Hok Hb Ha Hpb. run_js. rewrite H, Hok, Hb. cbn [negb].
  destruct (falsy data) eqn:Hf.
  - rewrite (falsy_no_prop data "predicao" Hf) in Ha. discriminate.
  - now rewrite Ha, Hpb.
Qed.

(** The handler run to its end is its first half followed by its second. *)
Lemma handleAnalyze_split (atob : string -> Completion string)
    (x : Exchange) (st : State) :
  handleAnalyze atob x st
  = match handleAnalyze_start atob st with
    | NotStarted => st
    | Finished st' => st'
    | InFlight st1 p => handleAnalyze_resume p x st1
    end.
Proof.
  unfold handleAnalyze, handleAnalyze_start.
  destruct (selectedImage st) as [image|]; [|reflexivity].
  destruct (truthy (Some image)); [|reflexivity]. cbn [negb].
  unfold prepareRequest, handleAnalyze_resume, tryCatchFinally, bind, update,
    lift, ret, throw.
  destruct (atob (toDOMString (nth_error (split "," image) 1))); reflexivity.
Qed.

Lemma start_InFlight_inv (atob : string -> Completion string)
    (st st1 : State) (p : Pending) :
  handleAnalyze_start atob st = InFlight st1 p ->
  exists image byteCharacters,
    selectedImage st = Some image /\ truthy (Some image) = true /\
    atob (toDOMString (nth_error (split "," image) 1)) = inr byteCharacters /\
    st1 = setResult None (setError None (setIsLoading true st)) /\
    p = {| request :=
             {| req_url := API_URL; req_method := "POST";
                req_body := [{| entry_name := "file";
                                entry_value :=
                                  newBlob (byteArraysOf byteCharacters) "image/png";
                                entry_filename := "image.png" |}] |};
           abortAfter := API_TIMEOUT |}.
Proof.
  unfold handleAnalyze_start.
  destruct (selectedImage st) as [image|]; [|discriminate].
  destruct (truthy (Some image)) eqn:Ht; [|discriminate]. cbn [negb].
  unfold prepareRequest, bind, lift, ret.
  destruct (atob (toDOMString (nth_error (split "," image) 1)))
    as [e|byteCharacters] eqn:Hatob; [discriminate|].
  intro H. injection H as <- <-.
  exists image, byteCharacters. repeat split; auto.
Qed.

Lemma start_Finished_inv (atob : string -> Completion string)
    (st st' : State) :
  handleAnalyze_start atob st = Finished st' ->
  exists image e,
    selectedImage st = Some image /\ truthy (Some image) = true /\
    atob (toDOMString (nth_error (split "," image) 1)) = inl e /\
    st' = afterFailure e (setResult None (setError None (setIsLoading true st))).
Proof.
  unfold handleAnalyze_start.
  destruct (selectedImage st) as [image|]; [|discriminate].
  destruct (truthy (Some image)) eqn:Ht; [|discriminate]. cbn [negb].
  unfold prepareRequest, bind, lift, ret.
  destruct (atob (toDOMString (nth_error (split "," image) 1)))
    as [e|byteCharacters] eqn:Hatob; [|discriminate].
  intro H. injection H as <-.
  exists image, e. repeat split; auto.
Qed.

Lemma start_from_decoded (atob : string -> Completion string)
    (image : string) (st : State) :
  selectedImage st = Some image -> truthy (Some image) = true ->
  handleAnalyze_start atob st
  = let st1 := setResult None (setError None (setIsLoading true st)) in
    match atob (toDOMString (nth_error (split "," image) 1)) with
    | inl e => Finished (afterFailure e st1)
    | inr byteCharacters =>
        InFlight st1
          {| request :=
               {| req_url := API_URL; req_method := "POST";
                  req_body :=
                    [{| entry_name := "file";
                        entry_value :=
                          newBlob (byteArraysOf byteCharacters) "image/png";
                        entry_filename := "image.png" |}] |};
             abortAfter := API_TIMEOUT |}
    end.
Proof.
  intros Himg Ht. unfold handleAnalyze_start. rewrite Himg, Ht. cbn [negb].
  unfold prepareRequest, bind, lift, ret.
  now destruct (atob (toDOMString (nth_error (split "," image) 1))).
Qed.

Lemma resume_clears_flag (p : Pending) (x : Exchange) (st : State) :
  isLoading (handleAnalyze_resume p x st) = false.
Proof.
  run_js.
  destruct (awaitFetch (abortAfter p) x) as [e|r]; [reflexivity|].
  destruct (ok r); cbn [negb].
  - destruct (bodyJson r) as [e|data]; [reflexivity|].
    destruct (falsy data); [reflexivity|].
    destruct (getProp data "predicao"); [|reflexivity].
    destruct (getProp data "probabilidade"); reflexivity.
  - destruct (bodyText r); reflexivity.
Qed.

(** *** Failures of the analysis request *)




(** *** A successful analysis *)

(** [roundHalfUp] returns the integer nearest to [v * 2^e], the upper one
    on a tie: [n - 1/2 <= v * 2^e < n + 1/2]. *)
Lemma roundHalfUp_nearest (s : bool) (m : positive) (e : Z) :
  let v := if s then Z.neg m else Z.pos m in
  let n := roundHalfUp s m e in
  (0 <= e -> n = v * 2 ^ e) /\
  (e < 0 -> (2 * n - 1) * 2 ^ (- e) <= 2 * v < (2 * n + 1) * 2 ^ (- e)).
Proof.
  intros v n. unfold n, roundHalfUp. fold v. split; intro He.
  - destruct (Z.leb_spec 0 e); [reflexivity | lia].
  - destruct (Z.leb_spec 0 e); [lia|].
    rewrite Z.shiftr_div_pow2 by lia.
    set (d := 2 ^ (- e - 1)).
    assert (Hd : 0 < d) by (apply Z.pow_pos_nonneg; lia).
    assert (Hpow : 2 ^ (- e) = 2 * d).
    { unfold d. rewrite <- Z.pow_succ_r by lia. f_equal. lia. }
    rewrite Hpow.
    pose proof (Z.div_mod (v + d) (2 * d) ltac:(lia)) as Hdm.
    pose proof (Z.mod_pos_bound (v + d) (2 * d) ltac:(lia)) as Hr.
    set (q := (v + d) / (2 * d)) in *.
    set (r := (v + d) mod (2 * d)) in *.
    clearbody q r d. lia.
Qed.

Lemma Math_round_finite (y : float) (s : bool) (m : positive) (e : Z) :
  Prim2SF y = S754_finite s m e -> Math_round y = Integer (roundHalfUp s m e).
Proof. unfold Math_round. now intros ->. Qed.

(** C3: on a 2xx response whose body parses to a document with a string
    [predicao] and a numeric [probabilidade], [handleAnalyze] sets the result
    to exactly that pair and leaves the error cleared, so no banner is shown.
    When the probability times 100 rounds to a whole number [n] below 2^53
    in magnitude, the confidence shown is the decimal digits of [n] followed
    by a percent sign, [n] being the whole number nearest to the product,
    the upper one on a tie; 0.87 is shown as 87%. *)
Theorem analysis_success_path :
  forall (atob : string -> Completion string) (x : Exchange)
         (st st1 : State) (p : Pending) (r : Response) (data : JSValue)
         (label : string) (prob : float) (n : Z),
    handleAnalyze_start atob st = InFlight st1 p ->
    awaitFetch (abortAfter p) x = Resolves r ->
    ok r = true ->
    bodyJson r = inr data ->
    getProp data "predicao" = Some (JString label) ->
    getProp data "probabilidade" = Some (JNumber prob) ->
    Math_round (prob * 100) = Integer n ->
    Z.abs n < 2 ^ 53 ->
    let final := handleAnalyze atob x st in
    result final = Some {| predicao := JString label;
                           probabilidade := JNumber prob |} /\
    error final = None /\
    errorBanner final = None /\
    shownConfidence final
    = Some (Text (NilZero.string_of_int (Z.to_int n) ++ "%")) /\
    (Prim2SF (prob * 100) = S754_zero false \/
     Prim2SF (prob * 100) = S754_zero true -> n = 0) /\
    (forall s m e, Prim2SF (prob * 100) = S754_finite s m e ->
       let v := if s then Z.neg m else Z.pos m in
       (0 <= e -> n = v * 2 ^ e) /\
       (e < 0 -> (2 * n - 1) * 2 ^ (- e) <= 2 * v
                                          < (2 * n + 1) * 2 ^ (- e))) /\
    confidenceText {| predicao := JString "Tuberculose";
                      probabilidade := JNumber 0x1.bd70a3d70a3d7p-1 |}
    = Text "87%".
Proof.
  intros atob x st st1 p r data label prob n Hstart Hr Hok Hd Hl Hp
         Hround Hbound final.
  assert (Hfinal : final
                   = setIsLoading false
                       (setResult (Some {| predicao := JString label;
                                           probabilidade := JNumber prob |})
                                  st1)).
  { unfold final. rewrite handleAnalyze_split, Hstart.
    apply (resume_success _ _ _ _ _ _ _ Hr Hok Hd Hl Hp). }
  destruct (start_InFlight_inv _ _ _ _ Hstart)
    as (image & bytes & _ & _ & _ & Hst1 & _).
  rewrite Hfinal, Hst1. clear final Hfinal.
  split; [reflexivity|]. split; [reflexivity|]. split; [reflexivity|].
  split; [|split; [|split]].
  - unfold shownConfidence, confidenceText.
    cbn [result setIsLoading setResult probabilidade toNumber].
    rewrite Hround. cbn [integralToString].
    destruct (Z.ltb_spec (Z.abs n) (2 ^ 53)); [reflexivity | lia].
  - unfold Math_round in Hround.
    intros [Hz | Hz]; rewrite Hz in Hround; now injection Hround.
  - intros s m e Hsf v.
    rewrite (Math_round_finite _ _ _ _ Hsf) in Hround.
    injection Hround as <-. apply roundHalfUp_nearest.
  - vm_compute. reflexivity.
Qed.

(** A JPEG is selected and the server answers 200 with the prediction
    Tuberculose at 0.87. *)
Lemma analysis_success_path_witness :
  let final :=
    handleAnalyze Browser.atob (Sample.replies Sample.tuberculose)
                  Sample.selected in
  result final = Some {| predicao := JString "Tuberculose";
                         probabilidade := JNumber 0x1.bd70a3d70a3d7p-1 |} /\
  error final = None /\
  errorBanner final = None /\
  shownConfidence final = Some (Text "87%").
Proof.
  pose proof (analysis_success_path Browser.atob
                (Sample.replies Sample.tuberculose) Sample.selected
                _ _ Sample.tuberculose _ "Tuberculose" 0x1.bd70a3d70a3d7p-1 87
                eq_refl eq_refl eq_refl eq_refl eq_refl eq_refl
                eq_refl eq_refl) as H.
  destruct H as (Hres & Herr & Hban & Hconf & _).
  repeat split; assumption.
Defined.

(** *** What a 2xx body must look like *)

(** C4, as the code has it: on a 2xx response whose body parses, the
    analysis fails with the message "Resposta inválida do servidor." exactly
    when [predicao] or [probabilidade] is absent; when both are present they
    become the result whatever their types; and when the body does not parse
    the analysis fails with the message of the parser's exception. *)
Theorem response_shape_check :
  forall (atob : string -> Completion string) (x : Exchange)
         (st st1 : State) (p : Pending) (r : Response),
    handleAnalyze_start atob st = InFlight st1 p ->
    awaitFetch (abortAfter p) x = Resolves r ->
    ok r = true ->
    let final := handleAnalyze atob x st in
    (forall data, bodyJson r = inr data ->
       getProp data "predicao" = None \/
       getProp data "probabilidade" = None ->
       error final = Some "Resposta inválida do servidor." /\
       result final = Some errorResult) /\
    (forall data a b, bodyJson r = inr data ->
       getProp data "predicao" = Some a ->
       getProp data "probabilidade" = Some b ->
       error final = None /\
       result final = Some {| predicao := a; probabilidade := b |}) /\
    (forall e, bodyJson r = inl e ->
       error final = Some (thrownMessage e) /\
       result final = Some errorResult).
Proof.
  intros atob x st st1 p r Hstart Hr Hok final.
  assert (Hfinal : final = handleAnalyze_resume p x st1).
  { unfold final. now rewrite handleAnalyze_split, Hstart. }
  destruct (start_InFlight_inv _ _ _ _ Hstart)
    as (image & bytes & _ & _ & _ & Hst1 & _).
  rewrite Hfinal. clear final Hfinal. split; [|split].
  - intros data Hd Hmiss.
    now rewrite (resume_missing_field _ _ _ _ _ Hr Hok Hd Hmiss).
  - intros data a b Hd Ha Hb.
    rewrite (resume_success _ _ _ _ _ _ _ Hr Hok Hd Ha Hb), Hst1.
    now split.
  - intros e He. now rewrite (resume_json_fails _ _ _ _ _ Hr Hok He).
Qed.

(** The server answers 200 with a body that has no [probabilidade]. *)
Lemma response_shape_check_witness :
  let final :=
    handleAnalyze Browser.atob (Sample.replies Sample.noProbability)
                  Sample.selected in
  error final = Some "Resposta inválida do servidor." /\
  result final = Some errorResult.
Proof.
  pose proof (response_shape_check Browser.atob
                (Sample.replies Sample.noProbability) Sample.selected
                _ _ Sample.noProbability eq_refl eq_refl eq_refl) as H.
  destruct H as [H _].
  exact (H _ eq_refl (or_intror eq_refl)).
Defined.

(** C4 as stated fails twice.  A 200 response whose body is an HTML page
    fails with the parser's message, not with the invalid-response one; and a
    200 response whose [predicao] is a number and whose [probabilidade] is a
    string is accepted. *)
Lemma response_shape_counterexample :
  (let final :=
     handleAnalyze Browser.atob (Sample.replies Sample.htmlPage)
                   Sample.selected in
   ok Sample.htmlPage = true /\
   error final = Some "Unexpected token < in JSON at position 0" /\
   error final <> Some invalidResponseMessage) /\
  (let final :=
     handleAnalyze Browser.atob (Sample.replies Sample.wrongTypes)
                   Sample.selected in
   ok Sample.wrongTypes = true /\
   error final = None /\
   result final = Some {| predicao := JNumber 7;
                          probabilidade := JString "alta" |}).
Proof.
  split; cbv zeta.
  - split; [reflexivity|]. split; [reflexivity|]. discriminate.
  - split; [reflexivity|]. split; reflexivity.
Qed.

(** *** The timeout *)

Lemma awaitFetch_expired (x : Exchange) :
  settlesAt x = None \/ (exists t, settlesAt x = Some t /\ t > 300000) ->
  awaitFetch 300000 x = Rejects (abortReason x) /\
  fetchSettledAt 300000 x = 300000.
Proof.
  unfold awaitFetch, fetchSettledAt.
  intros [-> | (t & -> & Ht)]; [now split|].
  destruct (Z.ltb_spec t 300000); [lia | now split].
Qed.

Lemma awaitFetch_in_time (x : Exchange) (t : Z) :
  settlesAt x = Some t -> t < 300000 ->
  awaitFetch 300000 x = settlesWith x /\ fetchSettledAt 300000 x = t.
Proof.
  unfold awaitFetch, fetchSettledAt. intros -> Ht.
  destruct (Z.ltb_spec t 300000); [now split | lia].
Qed.

(** C6, as the code has it: a run that gets to send its request arms a
    timer of exactly 300,000 ms on the wait for the [fetch] promise.  If the
    promise has not settled when the timer fires, the request is aborted and
    the run ends then, on the failure path: error message, error result,
    flag cleared.  If the promise settles earlier the timer is cleared and
    nothing is aborted: on a rejection the run ends at once; on a response
    it ends when the read of the body ends, however long that takes, and
    never if the body never arrives, the flag staying set. *)
Theorem fetch_wait_bounded_by_timeout :
  forall (atob : string -> Completion string) (image byteCharacters : string)
         (st : State),
    selectedImage st = Some image ->
    truthy (Some image) = true ->
    atob (toDOMString (nth_error (split "," image) 1)) = inr byteCharacters ->
    API_TIMEOUT = 300000 /\
    exists st1 p,
      handleAnalyze_start atob st = InFlight st1 p /\
      abortAfter p = 300000 /\
      forall (x : Exchange) (bodyTakes : option Z),
        let final := handleAnalyze atob x st in
        (settlesAt x = None \/ (exists t, settlesAt x = Some t /\ t > 300000) ->
         awaitFetch (abortAfter p) x = Rejects (abortReason x) /\
         handleAnalyze_ending p x bodyTakes st1 = EndsAt 300000 final /\
         error final = Some (thrownMessage (abortReason x)) /\
         result final = Some errorResult /\
         isLoading final = false) /\
        (forall t, settlesAt x = Some t -> t < 300000 ->
           awaitFetch (abortAfter p) x = settlesWith x /\
           (forall e, settlesWith x = Rejects e ->
              handleAnalyze_ending p x bodyTakes st1 = EndsAt t final) /\
           (forall r d, settlesWith x = Resolves r -> bodyTakes = Some d ->
              handleAnalyze_ending p x bodyTakes st1 = EndsAt (t + d) final) /\
           (forall r, settlesWith x = Resolves r -> bodyTakes = None ->
              handleAnalyze_ending p x bodyTakes st1 = NeverEnds st1 /\
              isLoading st1 = true)).
Proof.
  intros atob image byteCharacters st Himg Ht Hatob.
  split; [reflexivity|].
  pose proof (start_from_decoded atob image st Himg Ht) as Hstart.
  rewrite Hatob in Hstart. cbv zeta in Hstart.
  match type of Hstart with
  | _ = InFlight ?s1 ?pp =>
      exists s1, pp; set (p := pp) in *; set (st1 := s1) in *
  end.
  split; [exact Hstart|]. split; [reflexivity|].
  intros x bodyTakes final.
  assert (Hfinal : final = handleAnalyze_resume p x st1).
  { unfold final. now rewrite handleAnalyze_split, Hstart. }
  unfold handleAnalyze_ending.
  change (abortAfter p) with 300000.
  split.
  - intro Hlate. destruct (awaitFetch_expired x Hlate) as [Hab Hat].
    rewrite Hab, Hat. split; [reflexivity|]. split; [now rewrite Hfinal|].
    rewrite Hfinal, (resume_rejects _ _ _ (abortReason x)) by exact Hab.
    repeat split.
  - intros t Hs Hlt. destruct (awaitFetch_in_time x t Hs Hlt) as [Hin Hat].
    rewrite Hin, Hat. split; [reflexivity|]. split; [|split].
    + intros e ->. now rewrite Hfinal.
    + intros r d -> ->. now rewrite Hfinal.
    + intros r -> ->. now split.
Qed.

(** The JPEG is selected and the answer comes a millisecond after the
    timer has fired. *)
Lemma fetch_wait_bounded_by_timeout_witness :
  exists st1 p,
    handleAnalyze_start Browser.atob Sample.selected = InFlight st1 p /\
    abortAfter p = 300000 /\
    handleAnalyze_ending p (Sample.repliesLate Sample.tuberculose) (Some 50) st1
    = EndsAt 300000
        (handleAnalyze Browser.atob (Sample.repliesLate Sample.tuberculose)
                       Sample.selected) /\
    error (handleAnalyze Browser.atob (Sample.repliesLate Sample.tuberculose)
                         Sample.selected)
    = Some "The user aborted a request.".
Proof.
  destruct (fetch_wait_bounded_by_timeout Browser.atob Sample.jpegUrl
              (string_of_list_ascii [ascii_of_N 255; ascii_of_N 216;
                                     ascii_of_N 255; ascii_of_N 224])
              Sample.selected eq_refl eq_refl eq_refl)
    as (_ & st1 & p & Hstart & Hdelay & Hrun).
  exists st1, p. split; [exact Hstart|]. split; [exact Hdelay|].
  destruct (Hrun (Sample.repliesLate Sample.tuberculose) (Some 50))
    as [Hlate _].
  destruct (Hlate (or_intror (ex_intro _ 300001 (conj eq_refl eq_refl))))
    as (_ & Hend & Herr & _).
  split; [exact Hend | exact Herr].
Defined.

(** C6 as stated fails.  The JPEG is selected and the response comes after
    1.2 seconds.  When its body takes ten minutes more, the run is not
    aborted: it ends after 601,200 ms, with the server's result and no
    error.  When its body never arrives, the run never ends and the flag
    stays set. *)
Lemma body_read_is_not_bounded :
  exists st1 p,
    handleAnalyze_start Browser.atob Sample.selected = InFlight st1 p /\
    (exists final,
       handleAnalyze_ending p (Sample.replies Sample.tuberculose)
                            (Some 600000) st1
       = EndsAt 601200 final /\
       601200 > API_TIMEOUT /\
       error final = None /\
       result final
       = Some {| predicao := JString "Tuberculose";
                 probabilidade := JNumber 0x1.bd70a3d70a3d7p-1 |}) /\
    handleAnalyze_ending p (Sample.replies Sample.tuberculose) None st1
    = NeverEnds st1 /\
    isLoading st1 = true.
Proof.
  do 2 eexists. split; [reflexivity|]. split; [|split; reflexivity].
  eexists. split; [reflexivity|]. repeat split.
Qed.

Example late_reply_is_aborted :
  let final :=
    handleAnalyze Browser.atob (Sample.repliesLate Sample.tuberculose)
                  Sample.selected in
  error final = Some "The user aborted a request." /\
  result final = Some errorResult /\ isLoading final = false.
Proof. repeat split. Qed.

(** *** File intake *)

Lemma validateFile_truthy (f : File) (msg : string) :
  validateFile f = Some msg -> truthy (Some msg) = true.
Proof.
  unfold validateFile.
  destruct (negb (includes ALLOWED_TYPES (file_type f))).
  - now intros [= <-].
  - destruct (file_size f >? MAX_FILE_SIZE); [now intros [= <-] | discriminate].
Qed.

Lemma handleImageUpload_rejected (f : File) (msg : string) (st : State) :
  validateFile f = Some msg ->
  handleImageUpload (Some f) st
  = (setInputValue "" (setError (Some msg) (setResult None (setError None st))),
     None).
Proof.
  intro Hv. unfold handleImageUpload.
  now rewrite Hv, (validateFile_truthy f msg Hv).
Qed.

Lemma handleImageUpload_accepted (f : File) (st : State) :
  validateFile f = None ->
  handleImageUpload (Some f) st = (setResult None (setError None st), Some f).
Proof. intro Hv. unfold handleImageUpload. now rewrite Hv. Qed.

(** A file the validator refuses leaves the selected image as it was, and
    the value of the file input is cleared. *)
Lemma rejected_pick_keeps_image (f : File) (msg : string) (st : State) :
  validateFile f = Some msg ->
  selectedImage (pickFile (Some f) st) = selectedImage st /\
  inputValue (pickFile (Some f) st) = "" /\
  error (pickFile (Some f) st) = Some msg.
Proof.
  intro Hv. unfold pickFile.
  rewrite (handleImageUpload_rejected f msg st Hv). repeat split.
Qed.

(** A file that is accepted and read replaces the selected image. *)
Lemma successful_pick_replaces_image (f : File) (url : string) (st : State) :
  validateFile f = None -> file_read f = ReadOk url ->
  pickFile (Some f) st
  = setSelectedImage (Some url) (setResult None (setError None st)).
Proof.
  intros Hv Hr. unfold pickFile.
  rewrite (handleImageUpload_accepted f st Hv), Hr. reflexivity.
Qed.

Example refused_is_reached :
  pickFile (Some Sample.report)
           (setInputValue "C:\fakepath\laudo.pdf" initialState)
  = Sample.refused.
Proof. reflexivity. Qed.

(** C7 (defect): the PNG passes the validator but its read fails while the
    JPEG is selected.  The [loadend] handler stores the reader's null result,
    so the selected image is lost; and nothing clears the file input, which
    keeps the path of the file that could not be read. *)
Theorem read_error_clears_selected_image :
  let before := setInputValue "C:\fakepath\torax.png" Sample.selected in
  let after := pickFile (Some Sample.unreadablePng) before in
  validateFile Sample.unreadablePng = None /\
  selectedImage before = Some Sample.jpegUrl /\
  selectedImage after = None /\
  inputValue after = "C:\fakepath\torax.png" /\
  error after = Some readErrorMessage.
Proof. repeat split. Qed.

(** C9 (defect): after a PDF has been refused, the same valid PNG is taken
    in through the drop zone and through the picker.  Both select it, but
    the drop handler never clears the error, so the banner of the refused
    PDF stays; the picker clears it. *)
Theorem drop_keeps_stale_error :
  let viaDrop := dropFile (Some Sample.chestPng) Sample.refused in
  let viaPicker :=
    pickFile (Some Sample.chestPng)
             (setInputValue "C:\fakepath\torax.png" Sample.refused) in
  dropZoneShown Sample.refused = true /\
  selectedImage viaDrop = Some Sample.pngUrl /\
  selectedImage viaPicker = Some Sample.pngUrl /\
  error viaPicker = None /\
  error viaDrop = Some invalidTypeMessage /\
  errorBanner viaDrop = Some invalidTypeMessage /\
  errorBanner viaPicker = None.
Proof. repeat split. Qed.

(** Both drag handlers call [preventDefault]. *)
Lemma drag_handlers_prevent_default (file : option File) (st : State) :
  defaultPrevented (handleDrop file st) = true /\
  defaultPrevented (handleDragOver st) = true.
Proof.
  split; [|reflexivity]. unfold handleDrop.
  destruct file as [f|]; [|reflexivity].
  now destruct (truthy (validateFile f)).
Qed.

(** Where the two intakes do agree: from a state that shows neither an
    error nor a result and whose file input is empty, a refused file gives
    the same state either way; so does a file that is accepted and read,
    up to the value the browser gave the file input. *)
Lemma drop_agrees_with_pick_on_clean_state (f : File) (st : State) :
  error st = None -> result st = None ->
  (forall msg, validateFile f = Some msg -> inputValue st = "" ->
     dropFile (Some f) st = pickFile (Some f) st) /\
  (forall url, validateFile f = None -> file_read f = ReadOk url ->
     dropFile (Some f) st = pickFile (Some f) st).
Proof.
  intros He Hr. destruct st as [img res ld err iv]. cbn in He, Hr. subst.
  split.
  - intros msg Hv Hiv. cbn in Hiv. subst. unfold dropFile, pickFile, handleDrop.
    rewrite (handleImageUpload_rejected f msg _ Hv).
    now rewrite Hv, (validateFile_truthy f msg Hv).
  - intros url Hv Hrd. unfold dropFile, pickFile, handleDrop.
    rewrite (handleImageUpload_accepted f _ Hv).
    rewrite Hv. cbn. now rewrite Hrd.
Qed.

(** C10: every change event first clears the error and the result, before
    the file is looked at: the handler behaves as if it had been started
    from the cleared state, the result is gone when it returns, and the
    error it leaves is the validator's verdict alone.  So with no file, or
    with a file the validator refuses, the result that was shown is erased
    although the selected image stays. *)
Theorem upload_clears_error_and_result_first :
  forall (file : option File) (st : State),
    let after := fst (handleImageUpload file st) in
    handleImageUpload file st
    = handleImageUpload file (setResult None (setError None st)) /\
    result after = None /\
    error after = match file with
                  | Some f => validateFile f
                  | None => None
                  end /\
    (file = None \/ (exists f msg, file = Some f /\ validateFile f = Some msg) ->
     snd (handleImageUpload file st) = None /\
     pickFile file st = after /\
     selectedImage (pickFile file st) = selectedImage st /\
     result (pickFile file st) = None).
Proof.
  intros file st after. unfold after. clear after.
  split; [|split; [|split]].
  - reflexivity.
  - destruct file as [f|]; [|reflexivity].
    unfold handleImageUpload. now destruct (truthy (validateFile f)).
  - destruct file as [f|]; [|reflexivity].
    destruct (validateFile f) as [msg|] eqn:Hv.
    + now rewrite (handleImageUpload_rejected f msg st Hv).
    + now rewrite (handleImageUpload_accepted f st Hv).
  - intros [-> | (f & msg & -> & Hv)].
    + repeat split.
    + unfold pickFile. rewrite (handleImageUpload_rejected f msg st Hv).
      repeat split.
Qed.

Example invalid_pick_erases_result :
  let after :=
    pickFile (Some Sample.report)
             (setInputValue "C:\fakepath\laudo.pdf" Sample.analysed) in
  result Sample.analysed <> None /\
  result after = None /\
  selectedImage after = selectedImage Sample.analysed /\
  error after = Some invalidTypeMessage.
Proof. repeat split. discriminate. Qed.

(** *** The request that is sent *)

Example atob_jpeg_header :
  Browser.atob "/9j/4A==" = inr (string_of_list_ascii
                                   [ascii_of_N 255; ascii_of_N 216;
                                    ascii_of_N 255; ascii_of_N 224]).
Proof. vm_compute. reflexivity. Qed.

(** Whatever media type the data URL names, its decoded payload goes out
    as a blob of type image/png. *)
Lemma start_sends_png (atob : string -> Completion string)
    (mime payload byteCharacters : string) (st : State) :
  selectedImage st = Some ("data:" ++ mime ++ ";base64," ++ payload) ->
  hasComma mime = false ->
  hasComma payload = false ->
  atob payload = inr byteCharacters ->
  handleAnalyze_start atob st
  = InFlight (setResult None (setError None (setIsLoading true st)))
      {| request :=
           {| req_url := API_URL; req_method := "POST";
              req_body :=
                [{| entry_name := "file";
                    entry_value :=
                      {| blob_bytes := list_byte_of_string byteCharacters;
                         blob_type := "image/png" |};
                    entry_filename := "image.png" |}] |};
         abortAfter := API_TIMEOUT |}.
Proof.
  intros Himg Hm Hp Hatob.
  unfold handleAnalyze_start. rewrite Himg.
  change (truthy (Some ("data:" ++ mime ++ ";base64," ++ payload))) with true.
  cbn [negb]. unfold prepareRequest, bind, lift, ret.
  rewrite (dataUrl_payload mime payload Hm Hp). cbn [toDOMString].
  rewrite Hatob. f_equal.
  unfold newBlob, append. cbn [app]. now rewrite byteArraysOf_concat.
Qed.

Lemma accepted_type_has_no_comma (f : File) :
  validateFile f = None -> hasComma (file_type f) = false.
Proof.
  unfold validateFile.
  destruct (includes ALLOWED_TYPES (file_type f)) eqn:Hin; [|discriminate].
  intros _. apply includes_In in Hin.
  destruct Hin as [<- | [<- | [<- | [<- | []]]]]; reflexivity.
Qed.

(** C5: a file of any accepted type (JPEG, PNG or WebP), once selected, is
    sent as a POST of one form field named file, file name image.png,
    holding a blob of type image/png whose bytes are the decoded payload of
    the file's data URL, unchanged and in order: relabelled, not
    transcoded. *)
Theorem wire_payload_relabelled_png :
  forall (atob : string -> Completion string) (f : File)
         (payload byteCharacters : string) (st : State),
    validateFile f = None ->
    file_read f = ReadOk ("data:" ++ file_type f ++ ";base64," ++ payload) ->
    hasComma payload = false ->
    atob payload = inr byteCharacters ->
    exists st1,
      handleAnalyze_start atob (pickFile (Some f) st)
      = InFlight st1
          {| request :=
               {| req_url := API_URL; req_method := "POST";
                  req_body :=
                    [{| entry_name := "file";
                        entry_value :=
                          {| blob_bytes := list_byte_of_string byteCharacters;
                             blob_type := "image/png" |};
                        entry_filename := "image.png" |}] |};
             abortAfter := API_TIMEOUT |}.
Proof.
  intros atob f payload byteCharacters st Hv Hread Hp Hatob.
  eexists.
  apply (start_sends_png atob (file_type f) payload byteCharacters).
  - unfold pickFile. rewrite (handleImageUpload_accepted f st Hv), Hread.
    reflexivity.
  - exact (accepted_type_has_no_comma f Hv).
  - exact Hp.
  - exact Hatob.
Qed.

(** A JPEG: the four bytes FF D8 FF E0 go out labelled image/png. *)
Lemma wire_payload_relabelled_png_witness :
  exists st1,
    handleAnalyze_start Browser.atob
                        (pickFile (Some Sample.chestJpeg) initialState)
    = InFlight st1
        {| request :=
             {| req_url := API_URL; req_method := "POST";
                req_body :=
                  [{| entry_name := "file";
                      entry_value :=
                        {| blob_bytes := [Byte.xff; Byte.xd8; Byte.xff; Byte.xe0];
                           blob_type := "image/png" |};
                      entry_filename := "image.png" |}] |};
           abortAfter := API_TIMEOUT |}.
Proof.
  exact (wire_payload_relabelled_png Browser.atob Sample.chestJpeg "/9j/4A=="
           (string_of_list_ascii [ascii_of_N 255; ascii_of_N 216;
                                  ascii_of_N 255; ascii_of_N 224])
           initialState eq_refl eq_refl eq_refl eq_refl).
Defined.

(** *** One request at a time *)

Lemma handleImageUpload_isLoading (file : option File) (st : State) :
  isLoading (fst (handleImageUpload file st)) = isLoading st.
Proof.
  unfold handleImageUpload. destruct file as [f|]; [|reflexivity].
  now destruct (truthy (validateFile f)).
Qed.

Lemma handleDrop_isLoading (file : option File) (st : State) :
  isLoading (dragState (handleDrop file st)) = isLoading st.
Proof.
  unfold handleDrop. destruct file as [f|]; [|reflexivity].
  now destruct (truthy (validateFile f)).
Qed.

Lemma settleReader_isLoading (i : Intake) (o : ReadOutcome) (st : State) :
  isLoading (settleReader (callbacksOf i) o st) = isLoading st.
Proof. now destruct i, o. Qed.

Lemma analyzeDisabled_spec (st : State) :
  analyzeDisabled st = true
  <-> truthy (selectedImage st) = false \/ isLoading st = true.
Proof.
  unfold analyzeDisabled. rewrite orb_true_iff, negb_true_iff. tauto.
Qed.

Lemma start_sets_flag (atob : string -> Completion string)
    (st st1 : State) (p : Pending) :
  handleAnalyze_start atob st = InFlight st1 p -> isLoading st1 = true.
Proof.
  intro H. destruct (start_InFlight_inv _ _ _ _ H)
    as (image & bytes & _ & _ & _ & -> & _).
  reflexivity.
Qed.

Lemma start_finished_clears_flag (atob : string -> Completion string)
    (st st' : State) :
  handleAnalyze_start atob st = Finished st' -> isLoading st' = false.
Proof.
  intro H. destruct (start_Finished_inv _ _ _ H)
    as (image & e & _ & _ & _ & ->).
  reflexivity.
Qed.

Lemma step_preserves (atob : string -> Completion string) (ev : Event)
    (sys : System) :
  oneRequestAtMost sys -> oneRequestAtMost (step atob ev sys).
Proof.
  unfold oneRequestAtMost. intro Inv.
  destruct ev as [value file | file | | i | | i x]; cbn [step].
  - pose proof (handleImageUpload_isLoading file
                  (setInputValue value (app sys))) as Hl.
    destruct (handleImageUpload file (setInputValue value (app sys)))
      as [st pending].
    cbn [fst] in Hl. cbn [app inflight]. rewrite Hl. exact Inv.
  - destruct (dropZoneShown (app sys)); [|exact Inv].
    cbn [app inflight]. now rewrite handleDrop_isLoading.
  - destruct (dropZoneShown (app sys)); exact Inv.
  - destruct (nth_error (readers sys) i) as [[intake o]|]; [|exact Inv].
    cbn [app inflight]. now rewrite settleReader_isLoading.
  - destruct (analyzeDisabled (app sys)) eqn:Hdis; [exact Inv|].
    assert (Hidle : isLoading (app sys) = false).
    { unfold analyzeDisabled in Hdis. now apply orb_false_iff in Hdis. }
    rewrite Hidle in Inv.
    destruct (handleAnalyze_start atob (app sys)) as [|st'|st1 p] eqn:Hs.
    + now rewrite Hidle.
    + cbn [app inflight].
      now rewrite (start_finished_clears_flag _ _ _ Hs).
    + cbn [app inflight].
      rewrite (start_sets_flag _ _ _ _ Hs), length_app, Inv. reflexivity.
  - destruct (nth_error (inflight sys) i) as [p|] eqn:Hn; [|exact Inv].
    cbn [app inflight]. rewrite resume_clears_flag.
    assert (Hlt : (i < List.length (inflight sys))%nat)
      by (apply nth_error_Some; congruence).
    destruct (isLoading (app sys)); [|lia].
    destruct (inflight sys) as [|p0 [|p1 rest]]; cbn in Inv; try lia.
    destruct i as [|i]; [reflexivity | cbn in Hlt; lia].
Qed.

Lemma run_preserves (atob : string -> Completion string) (evs : list Event) :
  forall sys, oneRequestAtMost sys -> oneRequestAtMost (run atob evs sys).
Proof.
  unfold run. induction evs as [|ev evs IH]; intros sys Inv; cbn [fold_left].
  - exact Inv.
  - apply IH, step_preserves, Inv.
Qed.

(** C8: a run of [handleAnalyze] started with an image selected sets the
    flag first: when the image decodes, the request is sent and the run
    suspends with the flag set; when it does not, the run ends at once with
    the flag cleared again.  Every way a run can end clears the flag.  The
    button is disabled exactly when no image is selected or the flag is set,
    a click on the enabled button with a decodable image adds one
    outstanding request and sets the flag, and a click while the flag is set
    starts nothing.  So, whatever the user and the network do from the first
    render on, at most one request is outstanding, and one is outstanding
    exactly while the flag is set; and such a state is reached. *)
Theorem single_request_in_flight :
  (forall atob st st1 p,
     handleAnalyze_start atob st = InFlight st1 p -> isLoading st1 = true) /\
  (forall atob st,
     truthy (selectedImage st) = true -> handleAnalyze_start atob st <> NotStarted) /\
  (forall atob st image byteCharacters,
     selectedImage st = Some image ->
     truthy (Some image) = true ->
     atob (toDOMString (nth_error (split "," image) 1)) = inr byteCharacters ->
     exists p,
       handleAnalyze_start atob st
       = InFlight (setResult None (setError None (setIsLoading true st))) p) /\
  (forall atob st image e,
     selectedImage st = Some image ->
     truthy (Some image) = true ->
     atob (toDOMString (nth_error (split "," image) 1)) = inl e ->
     handleAnalyze_start atob st
     = Finished (setIsLoading false
                   (setResult (Some errorResult)
                      (setError (Some (thrownMessage e))
                         (setResult None
                            (setError None (setIsLoading true st))))))) /\
  (forall p x st, isLoading (handleAnalyze_resume p x st) = false) /\
  (forall atob st st',
     handleAnalyze_start atob st = Finished st' -> isLoading st' = false) /\
  (forall atob x st,
     truthy (selectedImage st) = true ->
     isLoading (handleAnalyze atob x st) = false) /\
  (forall st,
     analyzeDisabled st = true
     <-> truthy (selectedImage st) = false \/ isLoading st = true) /\
  (forall atob sys image byteCharacters,
     analyzeDisabled (app sys) = false ->
     selectedImage (app sys) = Some image ->
     atob (toDOMString (nth_error (split "," image) 1)) = inr byteCharacters ->
     isLoading (app (step atob ClickAnalyze sys)) = true /\
     exists p, inflight (step atob ClickAnalyze sys)
               = (inflight sys ++ [p])%list) /\
  (forall atob sys,
     isLoading (app sys) = true -> step atob ClickAnalyze sys = sys) /\
  (forall atob evs,
     let sys := run atob evs initialSystem in
     (List.length (inflight sys) <= 1)%nat /\
     (isLoading (app sys) = true <-> List.length (inflight sys) = 1%nat)) /\
  (let sys := run Browser.atob Scenario.analysing initialSystem in
   isLoading (app sys) = true /\
   List.length (inflight sys) = 1%nat /\
   let done := step Browser.atob
                 (FetchSettles 0 (Sample.replies Sample.tuberculose)) sys in
   isLoading (app done) = false /\ inflight done = []).
Proof.
  split; [exact start_sets_flag|].
  split.
  { intros atob st Ht. unfold handleAnalyze_start.
    destruct (selectedImage st) as [image|]; [|discriminate].
    rewrite Ht. cbn [negb].
    now destruct (prepareRequest atob image _) as [[e|p] st1]. }
  split.
  { intros atob st image byteCharacters Himg Ht Hatob.
    rewrite (start_from_decoded atob image st Himg Ht), Hatob.
    eexists. reflexivity. }
  split.
  { intros atob st image e Himg Ht Hatob.
    now rewrite (start_from_decoded atob image st Himg Ht), Hatob. }
  split; [exact resume_clears_flag|].
  split; [exact start_finished_clears_flag|].
  split.
  { intros atob x st Ht. rewrite handleAnalyze_split.
    destruct (handleAnalyze_start atob st) as [|st'|st1 p] eqn:Hs.
    - revert Hs. unfold handleAnalyze_start.
      destruct (selectedImage st) as [image|]; [|discriminate].
      rewrite Ht. cbn [negb].
      now destruct (prepareRequest atob image _) as [[e|p] st1].
    - exact (start_finished_clears_flag _ _ _ Hs).
    - apply resume_clears_flag. }
  split; [exact analyzeDisabled_spec|].
  split.
  { intros atob sys image byteCharacters Hen Himg Hatob.
    assert (Ht : truthy (Some image) = true).
    { unfold analyzeDisabled in Hen. apply orb_false_iff in Hen.
      destruct Hen as [Hen _]. rewrite Himg in Hen.
      now apply negb_false_iff in Hen. }
    cbn [step]. rewrite Hen.
    rewrite (start_from_decoded atob image (app sys) Himg Ht), Hatob.
    cbv zeta. cbn [app inflight]. split; [reflexivity|].
    eexists. reflexivity. }
  split.
  { intros atob sys Hl. cbn [step]. unfold analyzeDisabled.
    now rewrite Hl, orb_true_r. }
  split.
  { intros atob evs sys.
    assert (Inv : oneRequestAtMost sys)
      by (apply run_preserves; reflexivity).
    unfold oneRequestAtMost in Inv.
    destruct (isLoading (app sys)); rewrite Inv; (split; [lia|]);
      split; intro; easy. }
  cbv zeta. repeat split.
Qed.

Example second_click_is_ignored :
  let sys :=
    run Browser.atob
        [Change "C:\fakepath\torax.jpg" (Some Sample.chestJpeg); ReadEnds 0;
         ClickAnalyze; ClickAnalyze; ClickAnalyze] initialSystem in
  List.length (inflight sys) = 1%nat /\ isLoading (app sys) = true /\
  let done := step Browser.atob
                (FetchSettles 0 (Sample.replies Sample.tuberculose)) sys in
  inflight done = [] /\ isLoading (app done) = false /\
  shownConfidence (app done) = Some (Text "87%").
Proof. repeat split. Qed.

(* ===================================================================== *)
(** * Further properties *)

(** *** The slices put into the blob *)

Lemma length_substring (s : string) (n m : nat) :
  String.length (substring n m s) = Nat.min m (String.length s - n).
Proof.
  rewrite <- !length_list_ascii, list_ascii_substring.
  now rewrite length_firstn, length_skipn.
Qed.

Lemma length_sliceBytes (slice : string) :
  List.length (sliceBytes slice) = String.length slice.
Proof.
  rewrite sliceBytes_spec. unfold list_byte_of_string.
  now rewrite length_map, length_list_ascii.
Qed.

Lemma sliceLoop_parts (s : string) :
  forall fuel offset acc,
    (String.length s <= fuel + offset)%nat ->
    exists added,
      sliceLoop fuel s offset acc = (acc ++ added)%list /\
      Forall (fun part => (1 <= List.length part <= 1024)%nat) added /\
      (String.length s - offset <= 1024 * List.length added
       < String.length s - offset + 1024)%nat.
Proof.
  induction fuel as [|fuel IH]; intros offset acc Hfuel.
  - exists []. cbn [sliceLoop List.length]. rewrite app_nil_r.
    repeat split; [constructor | lia | lia].
  - rewrite sliceLoop_step.
    destruct (Nat.ltb_spec offset (String.length s)) as [Hlt|Hge].
    + destruct (IH (offset + 1024)%nat
                   (acc ++ [sliceBytes (substring offset 1024 s)])%list
                   ltac:(lia)) as (added & Heq & Hall & Hcount).
      exists (sliceBytes (substring offset 1024 s) :: added).
      split; [|split].
      * rewrite Heq, <- app_assoc. reflexivity.
      * constructor; [|exact Hall].
        rewrite length_sliceBytes, length_substring. lia.
      * cbn [List.length]. lia.
    + exists []. cbn [List.length]. rewrite app_nil_r.
      repeat split; [constructor | lia | lia].
Qed.

(** X1: the loop of lines 59-68 cuts the decoded string into parts of at
    most 1024 bytes, none of them empty, as few as that allows, and the
    parts put end to end are the decoded bytes: no byte is lost, added or
    moved, whatever the length of the input. *)
Theorem slices_cover_the_bytes :
  forall byteCharacters : string,
    let parts := byteArraysOf byteCharacters in
    List.concat parts = list_byte_of_string byteCharacters /\
    Forall (fun part => (1 <= List.length part <= 1024)%nat) parts /\
    (String.length byteCharacters <= 1024 * List.length parts
     < String.length byteCharacters + 1024)%nat /\
    blob_bytes (newBlob parts "image/png") = list_byte_of_string byteCharacters.
Proof.
  intros byteCharacters parts.
  assert (Hcat : List.concat parts = list_byte_of_string byteCharacters)
    by apply byteArraysOf_concat.
  destruct (sliceLoop_parts byteCharacters (String.length byteCharacters) 0 []
                            ltac:(lia)) as (added & Heq & Hall & Hcount).
  change (sliceLoop (String.length byteCharacters) byteCharacters 0 [])
    with parts in Heq.
  cbn [app] in Heq. rewrite Heq.
  rewrite Nat.sub_0_r in Hcount.
  split; [now rewrite <- Heq|]. split; [exact Hall|].
  split; [exact Hcount|]. cbn [newBlob blob_bytes]. now rewrite <- Heq.
Qed.

(** *** Selected images that are not data URLs *)

(** X2: when the selected image holds no comma, [split(',')[1]] is
    undefined and the text handed to [atob] is the nine letters
    "undefined"; what follows is decided by what [atob] makes of them.  With
    a decoder that refuses them, the run ends at once on the failure path
    and no request is sent. *)
Theorem image_without_comma_decodes_undefined :
  forall (atob : string -> Completion string) (image : string) (st : State),
    selectedImage st = Some image ->
    truthy (Some image) = true ->
    hasComma image = false ->
    (forall e, atob "undefined" = inl e ->
       handleAnalyze_start atob st
       = Finished (afterFailure e (setResult None
                                     (setError None (setIsLoading true st))))) /\
    (forall byteCharacters, atob "undefined" = inr byteCharacters ->
       exists st1 p,
         handleAnalyze_start atob st = InFlight st1 p /\
         map (fun entry => blob_bytes (entry_value entry)) (req_body (request p))
         = [list_byte_of_string byteCharacters]).
Proof.
  intros atob image st Himg Ht Hc.
  rewrite (start_from_decoded atob image st Himg Ht).
  rewrite (split_no_comma image Hc). cbn [nth_error toDOMString].
  split.
  - intros e ->. reflexivity.
  - intros byteCharacters ->. do 2 eexists. split; [reflexivity|].
    cbn. now rewrite byteArraysOf_concat.
Qed.

Lemma image_without_comma_decodes_undefined_witness :
  handleAnalyze_start Browser.atob Scenario.oddImage
  = Finished {| selectedImage := Some "blob";
                result := Some errorResult; isLoading := false;
                error := Some "The string to be decoded is not correctly encoded.";
                inputValue := "" |}.
Proof.
  exact (proj1 (image_without_comma_decodes_undefined Browser.atob "blob"
                  Scenario.oddImage eq_refl eq_refl eq_refl)
               Browser.decodeError eq_refl).
Defined.

(** X3: only the text between the first and the second comma of the
    selected image is decoded; whatever follows a second comma is ignored,
    and the request built is the one built without it. *)
Theorem text_after_second_comma_is_ignored :
  forall (atob : string -> Completion string) (head payload tail : string)
         (st : State),
    hasComma head = false ->
    hasComma payload = false ->
    nth_error (split "," (head ++ "," ++ payload ++ "," ++ tail)) 1
    = Some payload /\
    prepareRequest atob (head ++ "," ++ payload ++ "," ++ tail) st
    = prepareRequest atob (head ++ "," ++ payload) st.
Proof.
  intros atob head payload tail st Hh Hp.
  assert (Hlong : nth_error (split "," (head ++ "," ++ payload ++ "," ++ tail)) 1
                  = Some payload).
  { change ("," ++ payload ++ "," ++ tail)
      with (String "," (payload ++ String "," tail)).
    rewrite (split_at_comma head _ Hh). cbn [nth_error].
    now rewrite (split_at_comma payload tail Hp). }
  assert (Hshort : nth_error (split "," (head ++ "," ++ payload)) 1
                   = Some payload).
  { change ("," ++ payload) with (String "," payload).
    rewrite (split_at_comma head _ Hh). cbn [nth_error].
    now rewrite (split_no_comma payload Hp). }
  split; [exact Hlong|].
  unfold prepareRequest. now rewrite Hlong, Hshort.
Qed.

Lemma text_after_second_comma_is_ignored_witness :
  prepareRequest Browser.atob "data:image/png;base64,iVBORw0KGgo=,ignored"
                 initialState
  = prepareRequest Browser.atob "data:image/png;base64,iVBORw0KGgo="
                   initialState.
Proof.
  exact (proj2 (text_after_second_comma_is_ignored Browser.atob
                  "data:image/png;base64" "iVBORw0KGgo=" "ignored"
                  initialState eq_refl eq_refl)).
Defined.

(** *** Runs that fail before anything is sent *)

(** X4: when [atob] throws on the payload of the selected image, a click on
    the enabled button sends nothing: the set of outstanding requests is
    unchanged, and the page shows the decoder's message with the error
    result, the flag cleared. *)
Theorem decode_failure_sends_nothing :
  forall (atob : string -> Completion string) (sys : System) (image : string)
         (e : Thrown),
    analyzeDisabled (app sys) = false ->
    selectedImage (app sys) = Some image ->
    atob (toDOMString (nth_error (split "," image) 1)) = inl e ->
    let sys' := step atob ClickAnalyze sys in
    inflight sys' = inflight sys /\
    readers sys' = readers sys /\
    error (app sys') = Some (thrownMessage e) /\
    result (app sys') = Some errorResult /\
    isLoading (app sys') = false /\
    selectedImage (app sys') = Some image.
Proof.
  intros atob sys image e Hen Himg Hatob sys'.
  assert (Ht : truthy (Some image) = true).
  { unfold analyzeDisabled in Hen. apply orb_false_iff in Hen.
    destruct Hen as [Hen _]. rewrite Himg in Hen.
    now apply negb_false_iff in Hen. }
  unfold sys'. cbn [step]. rewrite Hen.
  rewrite (start_from_decoded atob image (app sys) Himg Ht), Hatob.
  cbv zeta. cbn. now rewrite Himg.
Qed.

Lemma decode_failure_sends_nothing_witness :
  let sys := {| app := Scenario.oddImage; inflight := []; readers := [] |} in
  inflight (step Browser.atob ClickAnalyze sys) = [] /\
  error (app (step Browser.atob ClickAnalyze sys))
  = Some "The string to be decoded is not correctly encoded.".
Proof.
  pose proof (decode_failure_sends_nothing Browser.atob
                {| app := Scenario.oddImage; inflight := []; readers := [] |}
                "blob" Browser.decodeError eq_refl eq_refl eq_refl) as H.
  destruct H as (Hin & _ & Herr & _).
  split; [exact Hin | exact Herr].
Defined.

(** *** What a run leaves of the state it started from *)

Ltac crunch_resume :=
  run_js;
  repeat match goal with
         | |- context [awaitFetch ?d ?x] => destruct (awaitFetch d x)
         | |- context [negb (ok ?r)] => destruct (ok r); cbn [negb]
         | |- context [bodyText ?r] => destruct (bodyText r)
         | |- context [bodyJson ?r] => destruct (bodyJson r)
         | |- context [falsy ?d] => destruct (falsy d)
         | |- context [getProp ?d ?k] => destruct (getProp d k)
         end.

Lemma resume_frame (p : Pending) (x : Exchange) (st : State) :
  selectedImage (handleAnalyze_resume p x st) = selectedImage st /\
  inputValue (handleAnalyze_resume p x st) = inputValue st.
Proof. crunch_resume; now split. Qed.

Lemma start_cases (atob : string -> Completion string) (st : State) :
  truthy (selectedImage st) = true ->
  let st1 := setResult None (setError None (setIsLoading true st)) in
  (exists e, handleAnalyze_start atob st = Finished (afterFailure e st1)) \/
  (exists p, handleAnalyze_start atob st = InFlight st1 p).
Proof.
  intros Ht st1. destruct (selectedImage st) as [image|] eqn:Himg;
    [|discriminate].
  rewrite (start_from_decoded atob image st Himg Ht). cbv zeta. fold st1.
  destruct (atob _) as [e|b]; [left | right]; eexists; reflexivity.
Qed.

Lemma handleAnalyze_frame :
  forall (atob : string -> Completion string) (x : Exchange) (st : State),
    selectedImage (handleAnalyze atob x st) = selectedImage st /\
    inputValue (handleAnalyze atob x st) = inputValue st.
Proof.
  intros atob x st. rewrite handleAnalyze_split.
  destruct (truthy (selectedImage st)) eqn:Ht.
  - destruct (start_cases atob st Ht) as [[e ->] | [p ->]].
    + now split.
    + destruct (resume_frame p x
                  (setResult None (setError None (setIsLoading true st))))
        as [-> ->]. now split.
  - assert (Hns : handleAnalyze_start atob st = NotStarted).
    { unfold handleAnalyze_start.
      destruct (selectedImage st) as [image|]; [now rewrite Ht | reflexivity]. }
    rewrite Hns. now split.
Qed.

(** X5: a run of [handleAnalyze], whatever the decoder, the network and the
    server do, changes neither the selected image nor the value of the file
    input: not as a whole, not before it suspends, and not when it
    resumes. *)
Theorem analysis_keeps_image_and_input :
  forall (atob : string -> Completion string) (x : Exchange) (st : State),
    (selectedImage (handleAnalyze atob x st) = selectedImage st /\
     inputValue (handleAnalyze atob x st) = inputValue st) /\
    (forall st1 p,
       handleAnalyze_start atob st = InFlight st1 p ->
       selectedImage st1 = selectedImage st /\ inputValue st1 = inputValue st) /\
    (forall p,
       selectedImage (handleAnalyze_resume p x st) = selectedImage st /\
       inputValue (handleAnalyze_resume p x st) = inputValue st).
Proof.
  intros atob x st. split; [apply handleAnalyze_frame|]. split.
  - intros st1 p Hs.
    destruct (start_InFlight_inv _ _ _ _ Hs)
      as (image & bytes & _ & _ & _ & -> & _).
    now split.
  - intro p. apply resume_frame.
Qed.





Lemma resume_ignores_old_outcome (p : Pending) (x : Exchange)
    (img : option string) (iv : string) (r r' : option Result) (l l' : bool) :
  handleAnalyze_resume p x
    {| selectedImage := img; result := r; isLoading := l; error := None;
       inputValue := iv |}
  = handleAnalyze_resume p x
      {| selectedImage := img; result := r'; isLoading := l'; error := None;
         inputValue := iv |}.
Proof. crunch_resume; reflexivity. Qed.

(** X7: nothing of an earlier run is kept.  A second run on the state the
    first one left ends exactly as it would have ended without the first:
    its request is built from the selected image again, and the result and
    error of the first run are overwritten. *)
Theorem analysis_forgets_earlier_runs :
  forall (atob : string -> Completion string) (x1 x2 : Exchange) (st : State),
    handleAnalyze atob x2 (handleAnalyze atob x1 st) = handleAnalyze atob x2 st.
Proof.
  intros atob x1 x2 st.
  destruct (truthy (selectedImage st)) eqn:Ht.
  - destruct (handleAnalyze_frame atob x1 st) as [Himg Hiv].
    set (st' := handleAnalyze atob x1 st) in *.
    destruct (selectedImage st) as [image|] eqn:Hsel; [|discriminate].
    rewrite !handleAnalyze_split.
    rewrite (start_from_decoded atob image st' Himg Ht).
    rewrite (start_from_decoded atob image st Hsel Ht).
    cbv zeta.
    destruct st as [img r l e iv], st' as [img' r' l' e' iv'].
    cbn in Himg, Hiv, Hsel. subst.
    destruct (atob _) as [err|b]; [reflexivity|].
    apply resume_ignores_old_outcome.
  - assert (Hsame : handleAnalyze atob x1 st = st).
    { unfold handleAnalyze. destruct (selectedImage st); [|reflexivity].
      now rewrite Ht. }
    now rewrite Hsame.
Qed.

(** *** Responses that arrive late or with the wrong status *)

(** X8: when a request settles, its outcome is stored whatever the page
    shows by then.  The stored result is the same from every state, and the
    selected image is left as it is: an answer to a request for one image is
    shown under the image the user has picked in the meantime. *)
Theorem settled_request_is_stored_under_any_image :
  forall (p : Pending) (x : Exchange),
    (forall st, selectedImage (handleAnalyze_resume p x st) = selectedImage st) /\
    (exists r, forall st, result (handleAnalyze_resume p x st) = Some r).
Proof.
  intros p x. split; [intro st; apply resume_frame|].
  crunch_resume; eexists; intro st; reflexivity.
Qed.

Example answer_for_the_jpeg_shown_under_the_png :
  let sys :=
    run Browser.atob
        (Scenario.analysing
         ++ [Change "C:\fakepath\torax.png" (Some Sample.chestPng); ReadEnds 0;
             FetchSettles 0 (Sample.replies Sample.tuberculose)])
        initialSystem in
  selectedImage (app sys) = Some Sample.pngUrl /\
  result (app sys)
  = Some {| predicao := JString "Tuberculose";
            probabilidade := JNumber 0x1.bd70a3d70a3d7p-1 |}.
Proof. split; reflexivity. Qed.

(** X9: a response with a status outside 200..299 is never accepted, even
    when its body parses to a well-formed prediction: the JSON body is not
    read at all, the result is the error result and an error message is
    set. *)
Theorem non_2xx_is_never_accepted :
  forall (r : Response) (st : State),
    ok r = false ->
    let final :=
      snd (tryCatchFinally (processResponse r) catchClause finallyClause st) in
    result final = Some errorResult /\
    (exists m, error final = Some m) /\
    isLoading final = false /\
    (forall json,
       snd (tryCatchFinally
              (processResponse {| status := status r; bodyText := bodyText r;
                                  bodyJson := json |})
              catchClause finallyClause st)
       = final).
Proof.
  intros r st Hok final. unfold final, tryCatchFinally, processResponse,
    catchClause, finallyClause, bind, update, throw, ret, lift.
  rewrite Hok. cbn [negb].
  destruct (bodyText r) as [e|text] eqn:Ht.
  - repeat split; [eexists; reflexivity|].
    intro json. unfold ok in *. cbn [status bodyText]. rewrite Hok.
    reflexivity.
  - repeat split; [eexists; reflexivity|].
    intro json. unfold ok in *. cbn [status bodyText]. rewrite Hok.
    reflexivity.
Qed.

Lemma non_2xx_is_never_accepted_witness :
  let final :=
    handleAnalyze_resume {| request := {| req_url := API_URL;
                                          req_method := "POST";
                                          req_body := [] |};
                            abortAfter := API_TIMEOUT |}
                         (Sample.replies Scenario.unavailable)
                         Sample.selected in
  result final = Some errorResult /\
  error final = Some "Erro do servidor (503): Service Unavailable".
Proof.
  pose proof (non_2xx_is_never_accepted Scenario.unavailable Sample.selected
                eq_refl) as H.
  destruct H as (Hres & _ & _ & _).
  split; [exact Hres | reflexivity].
Defined.

(** *** What the page shows while a request is outstanding *)

Lemma handleImageUpload_result (file : option File) (st : State) :
  result (fst (handleImageUpload file st)) = None.
Proof.
  unfold handleImageUpload. destruct file as [f|]; [|reflexivity].
  now destruct (truthy (validateFile f)).
Qed.

Lemma handleDrop_result (file : option File) (st : State) :
  result (dragState (handleDrop file st)) = result st.
Proof.
  unfold handleDrop. destruct file as [f|]; [|reflexivity].
  now destruct (truthy (validateFile f)).
Qed.

Lemma settleReader_result (i : Intake) (o : ReadOutcome) (st : State) :
  result (settleReader (callbacksOf i) o st)
  = match i with
    | Picker => result st
    | DropZone => None
    end.
Proof. now destruct i, o. Qed.

Lemma step_keeps_noResultWhileLoading (atob : string -> Completion string)
    (ev : Event) (sys : System) :
  noResultWhileLoading sys -> noResultWhileLoading (step atob ev sys).
Proof.
  unfold noResultWhileLoading. intro Inv.
  destruct ev as [value file | file | | i | | i x]; cbn [step].
  - pose proof (handleImageUpload_result file
                  (setInputValue value (app sys))) as Hr.
    destruct (handleImageUpload file (setInputValue value (app sys)))
      as [st pending].
    cbn [fst] in Hr. cbn [app]. intros _. exact Hr.
  - destruct (dropZoneShown (app sys)); [|exact Inv].
    cbn [app]. now rewrite handleDrop_isLoading, handleDrop_result.
  - destruct (dropZoneShown (app sys)); exact Inv.
  - destruct (nth_error (readers sys) i) as [[intake o]|]; [|exact Inv].
    cbn [app]. rewrite settleReader_isLoading, settleReader_result.
    destruct intake; [exact Inv | reflexivity].
  - destruct (analyzeDisabled (app sys)); [exact Inv|].
    destruct (handleAnalyze_start atob (app sys)) as [|st'|st1 p] eqn:Hs.
    + exact Inv.
    + cbn [app]. rewrite (start_finished_clears_flag _ _ _ Hs). discriminate.
    + cbn [app]. intros _.
      destruct (start_InFlight_inv _ _ _ _ Hs)
        as (image & bytes & _ & _ & _ & -> & _).
      reflexivity.
  - destruct (nth_error (inflight sys) i) as [p|]; [|exact Inv].
    cbn [app]. rewrite resume_clears_flag. discriminate.
Qed.

(** X10: whatever the user and the network do from the first render on,
    no result is held while the flag is set: the card of an earlier analysis
    is never on screen during a later one. *)
Theorem no_result_while_loading :
  forall (atob : string -> Completion string) (evs : list Event),
    let sys := run atob evs initialSystem in
    isLoading (app sys) = true -> result (app sys) = None.
Proof.
  intros atob evs.
  assert (H : forall sys0, noResultWhileLoading sys0 ->
                           noResultWhileLoading (run atob evs sys0)).
  { unfold run. induction evs as [|ev evs IH]; intros sys0 Inv; cbn [fold_left].
    - exact Inv.
    - apply IH, step_keeps_noResultWhileLoading, Inv. }
  apply H. intro Hl. reflexivity.
Qed.

Lemma no_result_while_loading_witness :
  let sys := run Browser.atob Scenario.analysing initialSystem in
  isLoading (app sys) = true /\ result (app sys) = None.
Proof.
  split; [reflexivity|].
  exact (no_result_while_loading Browser.atob Scenario.analysing eq_refl).
Defined.

(** X11: in every state the page can reach, the button reads
    "Analisando..." and shows the spinner exactly while one request is
    outstanding, and reads "Analisar Imagem" exactly while none is. *)
Theorem button_label_tracks_the_request :
  forall (atob : string -> Completion string) (evs : list Event),
    let sys := run atob evs initialSystem in
    (buttonLabel (app sys) = "Analisando..."
     <-> List.length (inflight sys) = 1%nat) /\
    (spinnerShown (app sys) = true <-> List.length (inflight sys) = 1%nat) /\
    (buttonLabel (app sys) = "Analisar Imagem" <-> inflight sys = []).
Proof.
  intros atob evs sys.
  assert (Inv : oneRequestAtMost sys) by (apply run_preserves; reflexivity).
  unfold oneRequestAtMost in Inv. unfold buttonLabel, spinnerShown.
  destruct (isLoading (app sys)).
  - split; [|split]; split; intro H; try easy.
    rewrite H in Inv. discriminate.
  - destruct (inflight sys); [|discriminate].
    split; [|split]; split; intro H; easy.
Qed.

(** X12: the button looks enabled exactly when it is enabled: the class
    chosen on lines 184-188 is the blue one when [disabled] is false and the
    grey one when it is true. *)
Theorem button_looks_as_it_behaves :
  forall st : State,
    buttonClassName st
    = if analyzeDisabled st
      then "px-6 py-2 rounded-full text-white font-medium flex items-center gap-2 bg-gray-400 cursor-not-allowed transition-colors"
      else "px-6 py-2 rounded-full text-white font-medium flex items-center gap-2 bg-blue-600 hover:bg-blue-700 transition-colors".
Proof.
  intro st. unfold buttonClassName, analyzeDisabled.
  destruct (truthy (selectedImage st)), (isLoading st); reflexivity.
Qed.

(** *** The colour of the result card *)

Lemma prefix_spec (needle : string) :
  forall hay,
    String.prefix needle hay = true <-> exists post, hay = needle ++ post.
Proof.
  induction needle as [|a needle IH]; intro hay.
  - destruct hay; cbn; split; try reflexivity; intros _; eexists; reflexivity.
  - destruct hay as [|b hay]; cbn.
    + split; [discriminate | intros [post H]; discriminate].
    + destruct (ascii_dec a b) as [->|Hne].
      * rewrite IH. split; intros [post H]; exists post.
        -- now rewrite H.
        -- now injection H.
      * split; [discriminate|]. intros [post H]. injection H as H _.
        now destruct Hne.
Qed.

Lemma includesString_spec (needle : string) :
  forall hay, includesString needle hay = true <-> contains needle hay.
Proof.
  intro hay. split.
  - induction hay as [|c hay IH]; cbn [includesString];
      match goal with
      | |- context [String.prefix needle ?h] =>
          destruct (String.prefix needle h) eqn:Hp
      end.
    + intros _. apply prefix_spec in Hp. destruct Hp as [post Hp].
      exists "", post. exact Hp.
    + discriminate.
    + intros _. apply prefix_spec in Hp. destruct Hp as [post Hp].
      exists "", post. exact Hp.
    + intro H. destruct (IH H) as (pre & post & Heq).
      exists (String c pre), post. cbn. now rewrite Heq.
  - intros (pre & post & Heq). revert hay Heq.
    induction pre as [|c pre IH]; intros hay Heq.
    + assert (Hp : String.prefix needle hay = true)
        by (apply prefix_spec; now exists post).
      destruct hay; cbn [includesString]; now rewrite Hp.
    + subst hay.
      change (String c pre ++ needle ++ post)
        with (String c (pre ++ needle ++ post)).
      cbn [includesString].
      match goal with
      | |- context [String.prefix needle ?h] =>
          destruct (String.prefix needle h)
      end; [reflexivity|].
      now apply IH.
Qed.

(** X13: for a label that is a string, the card is red exactly when the
    label contains "Erro" and blue otherwise, whatever the probability; the
    result stored by a failed analysis is therefore always red. *)
Theorem card_is_red_iff_label_contains_Erro :
  forall (label : string) (p : JSValue),
    let r := {| predicao := JString label; probabilidade := p |} in
    (cardClassName r = inr redText <-> contains "Erro" label) /\
    (cardClassName r = inr blueText <-> ~ contains "Erro" label) /\
    cardClassName errorResult = inr redText.
Proof.
  intros label p r. unfold r, cardClassName. cbn [predicao].
  pose proof (includesString_spec "Erro" label) as Hspec.
  destruct (includesString "Erro" label).
  - assert (Hc : contains "Erro" label) by now apply Hspec.
    split; [|split]; [| |reflexivity]; split; intro H; try easy.
  - assert (Hc : ~ contains "Erro" label)
      by (intro Hc; apply Hspec in Hc; discriminate).
    split; [|split]; [| |reflexivity]; split; intro H; try easy.
Qed.

(** X14: a 2xx response whose [predicao] is present but is neither a string
    nor an array is accepted by the handler, which stores it and sets no
    error; the class expression of the result card then throws when the
    card is rendered. *)
Theorem stored_label_without_includes_throws_at_render :
  forall (p : Pending) (x : Exchange) (st : State) (r : Response)
         (data a b : JSValue),
    awaitFetch (abortAfter p) x = Resolves r ->
    ok r = true ->
    bodyJson r = inr data ->
    getProp data "predicao" = Some a ->
    getProp data "probabilidade" = Some b ->
    (forall s, a <> JString s) ->
    (forall items, a <> JArray items) ->
    let final := handleAnalyze_resume p x st in
    error final = error st /\
    exists stored,
      result final = Some stored /\ predicao stored = a /\
      exists message, cardClassName stored = inl (ThrownError message).
Proof.
  intros p x st r data a b Hr Hok Hd Ha Hb Hs Harr final.
  unfold final. rewrite (resume_success _ _ _ _ _ _ _ Hr Hok Hd Ha Hb).
  split; [reflexivity|]. eexists. split; [reflexivity|].
  split; [reflexivity|]. unfold cardClassName. cbn [predicao].
  destruct a as [| bl | n | s | items | fields]; try (eexists; reflexivity).
  - now destruct (Hs s).
  - now destruct (Harr items).
Qed.

Lemma stored_label_without_includes_throws_at_render_witness :
  let final :=
    handleAnalyze_resume {| request := {| req_url := API_URL;
                                          req_method := "POST";
                                          req_body := [] |};
                            abortAfter := API_TIMEOUT |}
                         (Sample.replies Scenario.numericLabel)
                         Sample.selected in
  error final = None /\
  exists stored,
    result final = Some stored /\ predicao stored = JNumber 7 /\
    exists message, cardClassName stored = inl (ThrownError message).
Proof.
  exact (stored_label_without_includes_throws_at_render
           {| request := {| req_url := API_URL; req_method := "POST";
                            req_body := [] |};
              abortAfter := API_TIMEOUT |}
           (Sample.replies Scenario.numericLabel) Sample.selected
           Scenario.numericLabel _ (JNumber 7) (JNumber 0.5)
           eq_refl eq_refl eq_refl eq_refl eq_refl
           ltac:(discriminate) ltac:(discriminate)).
Defined.

(** *** More on the two intakes *)

(** X15: when the validator accepts a file and its read fails, either
    intake ends in the same state: no image selected, whatever was selected
    before; no result; the could-not-read message; the flag and the file
    input untouched. *)
Theorem failed_read_leaves_no_image :
  forall (f : File) (st : State),
    validateFile f = None ->
    file_read f = ReadFails ->
    let after := {| selectedImage := None; result := None;
                    isLoading := isLoading st;
                    error := Some readErrorMessage;
                    inputValue := inputValue st |} in
    pickFile (Some f) st = after /\ dropFile (Some f) st = after.
Proof.
  intros f st Hv Hr after. unfold after, pickFile, dropFile, handleDrop.
  rewrite (handleImageUpload_accepted f st Hv), Hv. cbn. now rewrite Hr.
Qed.

Lemma failed_read_leaves_no_image_witness :
  selectedImage (dropFile (Some Sample.unreadablePng) Sample.refused) = None /\
  selectedImage (pickFile (Some Sample.unreadablePng) Sample.selected) = None.
Proof.
  destruct (failed_read_leaves_no_image Sample.unreadablePng Sample.refused
              eq_refl eq_refl) as [_ Hdrop].
  destruct (failed_read_leaves_no_image Sample.unreadablePng Sample.selected
              eq_refl eq_refl) as [Hpick _].
  split; [now rewrite Hdrop | now rewrite Hpick].
Defined.

(** X16: through either intake a read is started exactly for the files the
    validator accepts; a refused file, and an event without a file, start
    none. *)
Theorem read_started_iff_accepted :
  forall (file : option File) (st : State),
    let expected := match file with
                    | Some f => match validateFile f with
                                | None => Some f
                                | Some _ => None
                                end
                    | None => None
                    end in
    snd (handleImageUpload file st) = expected /\
    dragReader (handleDrop file st) = expected.
Proof.
  intros file st expected. unfold expected, handleImageUpload, handleDrop.
  destruct file as [f|]; [|now split].
  destruct (validateFile f) as [msg|] eqn:Hv.
  - rewrite (validateFile_truthy f msg Hv). now split.
  - now split.
Qed.

(** X17: no event of the user ends an outstanding request.  Apart from the
    settling of a request, every event leaves the outstanding requests in
    place, adding at most one at the end. *)
Theorem only_settling_removes_a_request :
  forall (atob : string -> Completion string) (ev : Event) (sys : System),
    (exists i x, ev = FetchSettles i x) \/
    (exists added,
       inflight (step atob ev sys) = (inflight sys ++ added)%list /\
       (List.length added <= 1)%nat).
Proof.
  intros atob ev sys.
  destruct ev as [value file | file | | i | | i x];
    [right | right | right | right | right | left; now exists i, x];
    cbn [step].
  - destruct (handleImageUpload file (setInputValue value (app sys))).
    exists []. cbn. now rewrite app_nil_r; auto.
  - exists []. rewrite app_nil_r.
    destruct (dropZoneShown (app sys)); cbn; auto.
  - exists []. rewrite app_nil_r.
    destruct (dropZoneShown (app sys)); cbn; auto.
  - exists []. rewrite app_nil_r.
    destruct (nth_error (readers sys) i) as [[intake o]|]; cbn; auto.
  - destruct (analyzeDisabled (app sys));
      [exists []; rewrite app_nil_r; cbn; auto|].
    destruct (handleAnalyze_start atob (app sys)) as [|st'|st1 p].
    + exists []. rewrite app_nil_r. cbn; auto.
    + exists []. rewrite app_nil_r. cbn; auto.
    + exists [p]. cbn; auto.
Qed.

(** *** The validator against what the page tells the user *)

(** X18: the types the file picker offers through its [accept] attribute
    are exactly the types the validator lets through. *)
Theorem accept_filter_matches_validator :
  forall f : File,
    In (file_type f) (split "," accept)
    <-> validateFile f <> Some invalidTypeMessage.
Proof.
  intro f.
  change (split "," accept) with ALLOWED_TYPES.
  rewrite <- includes_In. unfold validateFile.
  destruct (includes ALLOWED_TYPES (file_type f)); cbn [negb].
  - split; [|reflexivity]. intros _.
    destruct (file_size f >? MAX_FILE_SIZE); discriminate.
  - split; [discriminate|]. intro H. now destruct H.
Qed.

(** X19: a file of an accepted type is refused for its size only above
    10 MiB, twice the 5MB its message names: a file between 5 MiB and
    10 MiB is accepted. *)
Theorem size_limit_is_twice_the_message :
  forall f : File,
    includes ALLOWED_TYPES (file_type f) = true ->
    contains "5MB" fileTooLargeMessage /\
    (validateFile f = Some fileTooLargeMessage
     <-> file_size f > 2 * (5 * 1024 * 1024)) /\
    (5 * 1024 * 1024 < file_size f <= 2 * (5 * 1024 * 1024) ->
     validateFile f = None).
Proof.
  intros f Hty. split.
  - exists "Arquivo muito grande. O tamanho máximo permitido é ", ".".
    reflexivity.
  - unfold validateFile. rewrite Hty. cbn [negb].
    change MAX_FILE_SIZE with 10485760.
    destruct (Z.gtb_spec (file_size f) 10485760); split.
    + split; [lia | reflexivity].
    + lia.
    + split; [discriminate | lia].
    + reflexivity.
Qed.

Lemma size_limit_is_twice_the_message_witness :
  (5 * 1024 * 1024 < file_size Scenario.largePng)%Z /\
  validateFile Scenario.largePng = None.
Proof.
  destruct (size_limit_is_twice_the_message Scenario.largePng eq_refl)
    as (_ & _ & H).
  split; [reflexivity|]. apply H. split; [reflexivity | discriminate].
Defined.

(** *** The two intakes side by side *)

Lemma refused_file_effects_aux (f : File) (msg : string) (st : State) :
  validateFile f = Some msg ->
  pickFile (Some f) st
  = setInputValue "" (setError (Some msg) (setResult None (setError None st))) /\
  dropFile (Some f) st = setError (Some msg) st.
Proof.
  intro Hv. unfold pickFile, dropFile, handleDrop.
  rewrite (handleImageUpload_rejected f msg st Hv).
  rewrite Hv, (validateFile_truthy f msg Hv). now split.
Qed.

(** X20: a file the validator refuses with message [msg].  Through the
    picker the message is shown, the result is cleared and the file input
    is emptied; through the drop zone the message is shown and nothing else
    changes.  Either way the selected image and the flag stay. *)
Theorem refused_file_effects :
  forall (f : File) (msg : string) (st : State),
    validateFile f = Some msg ->
    pickFile (Some f) st
    = {| selectedImage := selectedImage st; result := None;
         isLoading := isLoading st; error := Some msg; inputValue := "" |} /\
    dropFile (Some f) st
    = {| selectedImage := selectedImage st; result := result st;
         isLoading := isLoading st; error := Some msg;
         inputValue := inputValue st |}.
Proof.
  intros f msg st Hv. unfold pickFile, dropFile, handleDrop.
  rewrite (handleImageUpload_rejected f msg st Hv).
  rewrite Hv, (validateFile_truthy f msg Hv). now split.
Qed.

Lemma refused_file_effects_witness :
  pickFile (Some Sample.hugePng) Sample.analysed
  = {| selectedImage := Some Sample.jpegUrl; result := None;
       isLoading := false; error := Some fileTooLargeMessage;
       inputValue := "" |} /\
  result (dropFile (Some Sample.hugePng) Sample.analysed)
  = result Sample.analysed.
Proof.
  destruct (refused_file_effects Sample.hugePng fileTooLargeMessage
              Sample.analysed eq_refl) as [Hpick Hdrop].
  split; [exact Hpick | now rewrite Hdrop].
Defined.

(** X21: a file the validator accepts and whose read gives [url].  Through
    the picker the image becomes [url] with error and result cleared;
    through the drop zone the image becomes [url] and the result is cleared,
    but the error that was shown stays. *)
Theorem accepted_file_effects :
  forall (f : File) (url : string) (st : State),
    validateFile f = None ->
    file_read f = ReadOk url ->
    pickFile (Some f) st
    = {| selectedImage := Some url; result := None;
         isLoading := isLoading st; error := None;
         inputValue := inputValue st |} /\
    dropFile (Some f) st
    = {| selectedImage := Some url; result := None;
         isLoading := isLoading st; error := error st;
         inputValue := inputValue st |}.
Proof.
  intros f url st Hv Hr. unfold pickFile, dropFile, handleDrop.
  rewrite (handleImageUpload_accepted f st Hv), Hv. cbn. now rewrite Hr.
Qed.

Lemma accepted_file_effects_witness :
  selectedImage (pickFile (Some Sample.chestPng) Sample.analysed)
  = Some Sample.pngUrl /\
  result (pickFile (Some Sample.chestPng) Sample.analysed) = None /\
  error (dropFile (Some Sample.chestPng) Sample.refused)
  = Some invalidTypeMessage.
Proof.
  destruct (accepted_file_effects Sample.chestPng Sample.pngUrl
              Sample.analysed eq_refl eq_refl) as [Hpick _].
  destruct (accepted_file_effects Sample.chestPng Sample.pngUrl
              Sample.refused eq_refl eq_refl) as [_ Hdrop].
  rewrite Hpick, Hdrop. repeat split.
Defined.

Lemma nth_error_last {A : Type} (l : list A) (x : A) :
  nth_error (l ++ [x]) (List.length l) = Some x.
Proof. induction l as [|y l IH]; [reflexivity | exact IH]. Qed.

Lemma nth_error_at_length {A : Type} (l : list A) :
  nth_error l (List.length l) = None.
Proof. induction l as [|y l IH]; [reflexivity | exact IH]. Qed.

(** A drop on the rendered drop zone followed by the end of the read it
    started is [dropFile]. *)
Lemma run_drop (atob : string -> Completion string) (file : option File)
    (sys : System) :
  dropZoneShown (app sys) = true ->
  app (run atob [Drop file; ReadEnds (List.length (readers sys))] sys)
  = dropFile file (app sys).
Proof.
  intro Hz. unfold run. cbn [fold_left step]. rewrite Hz.
  unfold dropFile, startReader.
  destruct (dragReader (handleDrop file (app sys))) as [f|];
    cbn [readers app].
  - now rewrite nth_error_last.
  - now rewrite nth_error_at_length.
Qed.

(** A change event that comes with the input value [value], followed by the
    end of the read it started, is [pickFile] from the state in which the
    input holds [value]. *)
Lemma run_change (atob : string -> Completion string) (value : string)
    (file : option File) (sys : System) :
  app (run atob [Change value file; ReadEnds (List.length (readers sys))] sys)
  = pickFile file (setInputValue value (app sys)).
Proof.
  unfold run. cbn [fold_left step]. unfold pickFile, startReader.
  destruct (handleImageUpload file (setInputValue value (app sys)))
    as [st [f|]]; cbn [readers app].
  - now rewrite nth_error_last.
  - now rewrite nth_error_at_length.
Qed.

(** X22: when taking a file in through the drop zone and through the
    picker leaves the page in the same state, the picker's change event
    coming with the value [value] the browser gave the file input.  For a
    file that is accepted and read: exactly when no error was shown before
    and the input already held [value].  For a refused file: exactly when no
    result was shown and the input was empty.  For an accepted file whose
    read fails: exactly when the input already held [value].  For an event
    without a file: exactly when neither error nor result was shown and the
    input already held [value]. *)
Theorem drop_equals_pick_exactly_when :
  forall (atob : string -> Completion string) (value : string)
         (file : option File) (sys : System),
    dropZoneShown (app sys) = true ->
    let n := List.length (readers sys) in
    let st := app sys in
    app (run atob [Drop file; ReadEnds n] sys)
    = app (run atob [Change value file; ReadEnds n] sys)
    <-> match file with
        | None => error st = None /\ result st = None /\ inputValue st = value
        | Some f =>
            match validateFile f, file_read f with
            | Some _, _ => result st = None /\ inputValue st = ""
            | None, ReadOk _ => error st = None /\ inputValue st = value
            | None, ReadFails => inputValue st = value
            end
        end.
Proof.
  intros atob value file sys Hz n st. unfold n, st.
  rewrite (run_drop atob file sys Hz), (run_change atob value file sys).
  destruct (app sys) as [img res ld err iv].
  destruct file as [f|].
  - destruct (validateFile f) as [msg|] eqn:Hv.
    + destruct (refused_file_effects_aux f msg
                  {| selectedImage := img; result := res; isLoading := ld;
                     error := err; inputValue := iv |} Hv) as [_ ->].
      destruct (refused_file_effects_aux f msg
                  (setInputValue value
                     {| selectedImage := img; result := res; isLoading := ld;
                        error := err; inputValue := iv |}) Hv) as [-> _].
      cbn. split.
      * intro H. injection H as -> ->. now split.
      * intros [-> ->]. reflexivity.
    + unfold pickFile, dropFile, handleDrop.
      rewrite (handleImageUpload_accepted f _ Hv), Hv. cbn.
      destruct (file_read f) as [url|]; cbn; split.
      * intro H. injection H as -> ->. now split.
      * intros [-> ->]. reflexivity.
      * intro H. now injection H.
      * intros ->. reflexivity.
  - cbn. split.
    + intro H. injection H as -> -> ->. now repeat split.
    + intros (-> & -> & ->). reflexivity.
Qed.

(** From the first render, the PNG: the drop leaves the input empty, the
    picker leaves the path in it, so the states differ; the refused PDF:
    the states are the same. *)
Lemma drop_equals_pick_exactly_when_witness :
  (app (run Browser.atob [Drop (Some Sample.chestPng); ReadEnds 0]
            initialSystem)
   = app (run Browser.atob
              [Change "C:\fakepath\torax.png" (Some Sample.chestPng);
               ReadEnds 0] initialSystem)
   <-> None = (None : option string) /\ "" = "C:\fakepath\torax.png") /\
  app (run Browser.atob [Drop (Some Sample.report); ReadEnds 0] initialSystem)
  = app (run Browser.atob
             [Change "C:\fakepath\laudo.pdf" (Some Sample.report); ReadEnds 0]
             initialSystem).
Proof.
  split.
  - exact (drop_equals_pick_exactly_when Browser.atob "C:\fakepath\torax.png"
             (Some Sample.chestPng) initialSystem eq_refl).
  - apply (drop_equals_pick_exactly_when Browser.atob "C:\fakepath\laudo.pdf"
             (Some Sample.report) initialSystem eq_refl).
    split; reflexivity.
Defined.

(** X23: both drag handlers suppress the browser's default action for every
    event, with or without a file, accepted or refused; the drag-over
    handler does nothing else. *)
Theorem drag_events_never_reach_the_browser :
  forall (file : option File) (st : State),
    defaultPrevented (handleDrop file st) = true /\
    defaultPrevented (handleDragOver st) = true /\
    dragState (handleDragOver st) = st /\
    dragReader (handleDragOver st) = None.
Proof.
  intros file st. split; [|repeat split].
  unfold handleDrop. destruct file as [f|]; [|reflexivity].
  now destruct (truthy (validateFile f)).
Qed.

(** *** The confidence at the ends of the range *)

Example confidence_at_the_ends :
  confidenceText {| predicao := JString "Normal"; probabilidade := JNumber 0 |}
  = Text "0%" /\
  confidenceText {| predicao := JString "Normal"; probabilidade := JNumber 1 |}
  = Text "100%" /\
  confidenceText {| predicao := JString "Normal";
                    probabilidade := JNumber 0x1.2666666666666p-1 |}
  = Text "57%" /\
  confidenceText errorResult = Text "0%".
Proof. repeat split; vm_compute; reflexivity. Qed.
